(** * FitTrack: workout records, their store, and the dashboard statistics

    A shallow embedding of the TypeScript pages [Dashboard.tsx], [History.tsx]
    and [Workout.tsx] and of the SQL migration that defines the record store
    they talk to, followed by the properties of the workout repository and of
    the aggregation that the specification states.

    Conventions.
    - A JavaScript string is the list of its UTF-16 code units.
    - A JavaScript [Date] is its time value: milliseconds since the epoch,
      [None] for an Invalid Date (NaN).  Time values are unbounded integers
      here: the limit of 8.64e15 ms that ECMAScript puts on a [Date] (about
      273 thousand years either side of 1970) is not modelled.
    - Code that reads the clock, talks to the store or changes component state
      takes the clock reading, the store and the state as arguments and
      returns the new ones. *)

From Stdlib Require Import String Ascii.
From Stdlib Require Import QArith Qround.
From Stdlib Require Import ZArith NArith List Bool Lia.
From Stdlib Require Import Sorting.Sorted Sorting.Permutation.
Import ListNotations.
Open Scope Z_scope.

(* ================================================================= *)
(** ** The JavaScript values the pages use *)

Module JS.

Definition jsstring := list N.

(** An ASCII literal as a JavaScript string. *)
Definition lit (s : string) : jsstring :=
  List.map N_of_ascii (list_ascii_of_string s).

(** [a === b] on strings. *)
Fixpoint eqb (a b : jsstring) : bool :=
  match a, b with
  | [], [] => true
  | x :: a', y :: b' => N.eqb x y && eqb a' b'
  | _, _ => false
  end.

(** WhiteSpace and LineTerminator code points, the ones [trim] removes. *)
Definition is_space (c : N) : bool :=
  ((9 <=? c) && (c <=? 13) || (c =? 32) || (c =? 160) || (c =? 5760)
   || (8192 <=? c) && (c <=? 8202) || (c =? 8232) || (c =? 8233)
   || (c =? 8239) || (c =? 8287) || (c =? 12288) || (c =? 65279))%N.

Fixpoint trimStart (s : jsstring) : jsstring :=
  match s with
  | c :: s' => if is_space c then trimStart s' else s
  | [] => []
  end.

Definition trimEnd (s : jsstring) : jsstring := rev (trimStart (rev s)).

(** [s.trim()] *)
Definition trim (s : jsstring) : jsstring := trimEnd (trimStart s).

(** ToBoolean on a string: the empty string is the only falsy one. *)
Definition truthy_string (s : jsstring) : bool :=
  match s with [] => false | _ :: _ => true end.

(** ToBoolean on an optional boolean ([undefined] is falsy). *)
Definition truthy (b : option bool) : bool :=
  match b with Some true => true | _ => false end.

(** *** Dates *)

Definition msPerDay : Z := 86400000.

Definition DayFromYear (y : Z) : Z :=
  365 * (y - 1970) + (y - 1969) / 4 - (y - 1901) / 100 + (y - 1601) / 400.

Definition InLeapYear (y : Z) : bool :=
  ((y mod 4 =? 0) && negb (y mod 100 =? 0)) || (y mod 400 =? 0).

(** Days in month [m] (1 to 12) of year [y]; 0 for any other [m]. *)
Definition DaysInMonth (y m : Z) : Z :=
  match m with
  | 1 | 3 | 5 | 7 | 8 | 10 | 12 => 31
  | 4 | 6 | 9 | 11 => 30
  | 2 => if InLeapYear y then 29 else 28
  | _ => 0
  end.

(** Days of year [y] before the first of month [m] (1 to 12). *)
Definition DaysBeforeMonth (y m : Z) : Z :=
  let leap := if InLeapYear y then 1 else 0 in
  match m with
  | 1 => 0 | 2 => 31 | 3 => 59 + leap | 4 => 90 + leap
  | 5 => 120 + leap | 6 => 151 + leap | 7 => 181 + leap
  | 8 => 212 + leap | 9 => 243 + leap | 10 => 273 + leap
  | 11 => 304 + leap | _ => 334 + leap
  end.

(** MakeDay: the day number (days since 1970-01-01) of a calendar date. *)
Definition MakeDay (y m d : Z) : Z :=
  DayFromYear y + DaysBeforeMonth y m + (d - 1).

Definition digit (c : N) : option Z :=
  if ((48 <=? c) && (c <=? 57))%N then Some (Z.of_N c - 48) else None.

Definition digits2 (a b : N) : option Z :=
  match digit a, digit b with
  | Some x, Some y => Some (10 * x + y)
  | _, _ => None
  end.

Definition digits4 (a b c d : N) : option Z :=
  match digits2 a b, digits2 c d with
  | Some x, Some y => Some (100 * x + y)
  | _, _ => None
  end.

Definition is_hyphen (c : N) : bool := (c =? 45)%N.

(** The day number written by a date-only string [YYYY-MM-DD], the form in
    which the store returns a [DATE] column; [None] for anything else. *)
Definition parse_day (s : jsstring) : option Z :=
  match s with
  | [y1; y2; y3; y4; h1; m1; m2; h2; d1; d2] =>
      if is_hyphen h1 && is_hyphen h2 then
        match digits4 y1 y2 y3 y4, digits2 m1 m2, digits2 d1 d2 with
        | Some y, Some m, Some d =>
            if (1 <=? m) && (m <=? 12) && (1 <=? d) && (d <=? DaysInMonth y m)
            then Some (MakeDay y m d) else None
        | _, _, _ => None
        end
      else None
  | _ => None
  end.

(** [new Date(s)] for a date-only string [YYYY-MM-DD] that names a day of
    the calendar: midnight UTC of that day.  This is the only form that the
    [DATE] column of the store prints, and the only one modelled: the [None]
    given for any other string stands for no engine's answer (an engine
    reads date-time strings too, and may roll a day past the end of its
    month over into the next), so the statements about the windows are made
    for calendar dates. *)
Definition Date_parse (s : jsstring) : option Z :=
  option_map (fun d => msPerDay * d) (parse_day s).

(** [a >= b] on two dates: the comparison of their time values, false as
    soon as one of them is NaN. *)
Definition Date_ge (a b : option Z) : bool :=
  match a, b with
  | Some x, Some y => y <=? x
  | _, _ => false
  end.

(** *** parseInt

    The integer that [parseInt(s)] denotes, [None] for NaN.  The result is
    the exact integer: its rounding to a double, which changes integers
    beyond 2^53 only, is not modelled. *)

Definition hex_digit (c : N) : option Z :=
  if ((48 <=? c) && (c <=? 57))%N then Some (Z.of_N c - 48)
  else if ((97 <=? c) && (c <=? 102))%N then Some (Z.of_N c - 87)
  else if ((65 <=? c) && (c <=? 70))%N then Some (Z.of_N c - 55)
  else None.

Definition radix_digit (R : Z) (c : N) : option Z :=
  if R =? 16 then hex_digit c else digit c.

(** The value of the longest prefix of [s] made of digits of radix [R],
    after the digits already read, whose value is [acc]; [None] when no
    digit was read at all. *)
Fixpoint digits_value (R : Z) (acc : option Z) (s : jsstring) : option Z :=
  match s with
  | c :: s' =>
      match radix_digit R c with
      | Some d =>
          digits_value R (Some (R * match acc with Some a => a | None => 0 end + d)) s'
      | None => acc
      end
  | [] => acc
  end.

(** Leading white space, a sign, [0x] or [0X] for radix 16, the digits. *)
Definition parseInt (s : jsstring) : option Z :=
  let S := trimStart s in
  let signed :=
    match S with
    | c :: S' => if (c =? 45)%N then (-1, S')
                 else if (c =? 43)%N then (1, S') else (1, S)
    | [] => (1, S)
    end in
  let prefixed :=
    match snd signed with
    | c :: x :: S' =>
        if ((c =? 48) && ((x =? 120) || (x =? 88)))%N then (16, S')
        else (10, snd signed)
    | _ => (10, snd signed)
    end in
  option_map (Z.mul (fst signed)) (digits_value (fst prefixed) None (snd prefixed)).

(** [n || 0] on a number: NaN and zero give 0. *)
Definition or_zero (n : option Z) : Z :=
  match n with Some z => z | None => 0 end.

End JS.

(* ================================================================= *)
(** ** The record store: the schema of the SQL migration *)

Module Store.

Definition uuid := JS.jsstring.

(** A value of an SQL [DATE] column. *)
Record SqlDate := mkDate { year : Z; month : Z; day : Z }.

(** [public.workouts].  The two timestamps are filled by [DEFAULT NOW()]
    on insert, as no request of the pages supplies them. *)
Record workout_row := mkWorkoutRow {
  w_id : uuid;
  w_user_id : uuid;
  w_name : JS.jsstring;
  w_date : SqlDate;
  w_notes : option JS.jsstring;
  w_created_at : Z;
  w_updated_at : Z
}.

(** [public.exercises]; [e_weight] is the [DECIMAL(10, 2)] value in
    hundredths. *)
Record exercise_row := mkExerciseRow {
  e_id : uuid;
  e_workout_id : uuid;
  e_name : JS.jsstring;
  e_sets : Z;
  e_reps : Z;
  e_weight : Z;
  e_notes : option JS.jsstring;
  e_created_at : Z
}.

Record DB := mkDB {
  workouts : list workout_row;
  exercises : list exercise_row
}.

Definition empty : DB := mkDB [] [].

(** What a statement sees of its session and of the server: the caller's
    identity [auth.uid()], [NOW()], [CURRENT_DATE] and the successive draws
    of [gen_random_uuid()]. *)
Record Env := mkEnv {
  auth_uid : option uuid;
  now : Z;
  current_date : SqlDate;
  gen_random_uuid : nat -> uuid
}.

Inductive table := Workouts | Exercises.

Inductive error :=
| rls_violation (t : table)
| unique_violation (t : table)
| foreign_key_violation
| numeric_out_of_range
| untranslatable_character
| network_failure (message : JS.jsstring).

Inductive result (A : Type) :=
| Ok (a : A)
| Err (e : error).
Arguments Ok {A} a.
Arguments Err {A} e.

(** [auth.uid() = u]: false for a caller without identity. *)
Definition is_caller (env : Env) (u : uuid) : bool :=
  match auth_uid env with
  | Some c => JS.eqb c u
  | None => false
  end.

Definition has_workout_id (i : uuid) (db : DB) : bool :=
  existsb (fun w => JS.eqb (w_id w) i) (workouts db).

Definition has_exercise_id (i : uuid) (es : list exercise_row) : bool :=
  existsb (fun e => JS.eqb (e_id e) i) es.

(** The [EXISTS] sub-query of the four policies on [exercises]. *)
Definition owns_workout (env : Env) (i : uuid) (db : DB) : bool :=
  existsb (fun w => JS.eqb (w_id w) i && is_caller env (w_user_id w))
          (workouts db).

(** A string that a [TEXT] column takes: one without U+0000, which the
    store refuses with an error of its own. *)
Definition is_text (s : JS.jsstring) : bool := negb (existsb (N.eqb 0) s).

Definition is_text_or_null (s : option JS.jsstring) : bool :=
  match s with Some t => is_text t | None => true end.

(** *** INSERT INTO workouts (user_id, name, notes) ... RETURNING *

    The column types, the policy's [WITH CHECK], then the primary key. *)
Definition insert_workout (env : Env) (user_id : uuid) (name notes : JS.jsstring)
    (db : DB) : result workout_row * DB :=
  let row := mkWorkoutRow (gen_random_uuid env 0%nat) user_id name
               (current_date env) (Some notes) (now env) (now env) in
  if negb (is_text name && is_text notes) then (Err untranslatable_character, db)
  else if negb (is_caller env user_id) then (Err (rls_violation Workouts), db)
  else if has_workout_id (w_id row) db then (Err (unique_violation Workouts), db)
  else (Ok row, mkDB (workouts db ++ [row]) (exercises db)).

(** *** INSERT INTO exercises (workout_id, name, sets, reps, weight, notes) *)

Record new_exercise := mkNewExercise {
  n_workout_id : uuid;
  n_name : JS.jsstring;
  n_sets : Z;
  n_reps : Z;
  n_weight : Q;
  n_notes : JS.jsstring
}.

Definition in_integer (z : Z) : bool :=
  (- 2147483648 <=? z) && (z <=? 2147483647).

(** Rounding to two decimals, half away from zero, in hundredths. *)
Definition round_hundredths (q : Q) : Z :=
  let x := (q * 100)%Q in
  if 0 <=? Qnum q then Qfloor (x + (1 # 2))%Q else Qceiling (x - (1 # 2))%Q.

(** [DECIMAL(10, 2)]: at most eight digits before the point. *)
Definition in_decimal_10_2 (h : Z) : bool := Z.abs h <? 10000000000.

(** One row of the statement: the column types, in the order of the
    columns, the policy's [WITH CHECK], the primary key among the rows
    present and those already added by the statement, the foreign key. *)
Definition check_exercise (env : Env) (db : DB) (added : list exercise_row)
    (k : nat) (x : new_exercise) : result exercise_row :=
  let h := round_hundredths (n_weight x) in
  let row := mkExerciseRow (gen_random_uuid env k) (n_workout_id x) (n_name x)
               (n_sets x) (n_reps x) h (Some (n_notes x)) (now env) in
  if negb (is_text (n_name x)) then Err untranslatable_character
  else if negb (in_integer (n_sets x) && in_integer (n_reps x) && in_decimal_10_2 h)
  then Err numeric_out_of_range
  else if negb (is_text (n_notes x)) then Err untranslatable_character
  else if negb (owns_workout env (n_workout_id x) db)
  then Err (rls_violation Exercises)
  else if has_exercise_id (e_id row) (exercises db ++ added)
  then Err (unique_violation Exercises)
  else if negb (has_workout_id (n_workout_id x) db)
  then Err foreign_key_violation
  else Ok row.

Fixpoint check_exercises (env : Env) (db : DB) (added : list exercise_row)
    (k : nat) (xs : list new_exercise) : result (list exercise_row) :=
  match xs with
  | [] => Ok added
  | x :: xs' =>
      match check_exercise env db added k x with
      | Ok row => check_exercises env db (added ++ [row]) (S k) xs'
      | Err e => Err e
      end
  end.

(** The statement is atomic: every row is added or none. *)
Definition insert_exercises (env : Env) (xs : list new_exercise) (db : DB)
    : result unit * DB :=
  match check_exercises env db [] 0%nat xs with
  | Ok rows => (Ok tt, mkDB (workouts db) (exercises db ++ rows))
  | Err e => (Err e, db)
  end.

(** *** SELECT * FROM workouts ORDER BY date DESC [LIMIT n] *)

Definition date_ltb (a b : SqlDate) : bool :=
  (year a <? year b)
  || (year a =? year b) && ((month a <? month b)
                            || (month a =? month b) && (day a <? day b)).

(** The statement leaves the order of rows of the same date open; the
    store returns them in storage order, and so does this: the row goes
    before the rows of [l] that have its date. *)
Fixpoint insert_by_date (w : workout_row) (l : list workout_row)
    : list workout_row :=
  match l with
  | [] => [w]
  | v :: l' =>
      if date_ltb (w_date w) (w_date v) then v :: insert_by_date w l'
      else w :: l
  end.

Fixpoint order_by_date_desc (l : list workout_row) : list workout_row :=
  match l with
  | [] => []
  | w :: l' => insert_by_date w (order_by_date_desc l')
  end.

Definition select_workouts (env : Env) (limit : option nat) (db : DB)
    : list workout_row :=
  let visible := filter (fun w => is_caller env (w_user_id w)) (workouts db) in
  let sorted := order_by_date_desc visible in
  match limit with
  | Some n => firstn n sorted
  | None => sorted
  end.

(** *** SELECT * FROM exercises WHERE workout_id = i *)
Definition select_exercises (env : Env) (i : uuid) (db : DB)
    : list exercise_row :=
  filter (fun e => JS.eqb (e_workout_id e) i
                   && owns_workout env (e_workout_id e) db)
         (exercises db).

(** *** DELETE FROM workouts WHERE id = i

    The caller's rows with that id go (the policy's [USING]); the exercises
    that reference a deleted row go with it ([ON DELETE CASCADE], which is
    not subject to the policies on [exercises]). *)
Definition deleted (env : Env) (i : uuid) (w : workout_row) : bool :=
  JS.eqb (w_id w) i && is_caller env (w_user_id w).

Definition delete_workout (env : Env) (i : uuid) (db : DB) : DB :=
  let gone := filter (deleted env i) (workouts db) in
  mkDB (filter (fun w => negb (deleted env i w)) (workouts db))
       (filter (fun e => negb (existsb (fun w => JS.eqb (w_id w) (e_workout_id e)) gone))
               (exercises db)).

(** *** UPDATE workouts SET ... WHERE id = i

    [set] computes the new row from the old one.  The trigger
    [update_workouts_updated_at] then runs [update_updated_at_column] on
    each new row, before it is written. *)
Definition update_updated_at_column (env : Env) (new : workout_row) : workout_row :=
  mkWorkoutRow (w_id new) (w_user_id new) (w_name new) (w_date new)
               (w_notes new) (w_created_at new) (now env).

Fixpoint distinct_ids (l : list workout_row) : bool :=
  match l with
  | [] => true
  | w :: l' => negb (existsb (fun v => JS.eqb (w_id v) (w_id w)) l')
               && distinct_ids l'
  end.

(** The policy's [USING] selects the rows and, the policy having no
    [WITH CHECK] of its own, also checks the new ones; the primary key and
    the foreign key of [exercises] (no action on update) are checked on the
    outcome of the statement. *)
Definition update_workout (env : Env) (i : uuid)
    (set : workout_row -> workout_row) (db : DB) : result unit * DB :=
  let new w := update_updated_at_column env (set w) in
  let ws := map (fun w => if deleted env i w then new w else w) (workouts db) in
  if negb (forallb (fun w => negb (deleted env i w)
                             || is_text (w_name (new w))
                                && is_text_or_null (w_notes (new w))) (workouts db))
  then (Err untranslatable_character, db)
  else if negb (forallb (fun w => negb (deleted env i w)
                             || is_caller env (w_user_id (new w))) (workouts db))
  then (Err (rls_violation Workouts), db)
  else if negb (distinct_ids ws) then (Err (unique_violation Workouts), db)
  else if negb (forallb (fun e => has_workout_id (e_workout_id e)
                                    (mkDB ws (exercises db))) (exercises db))
  then (Err foreign_key_violation, db)
  else (Ok tt, mkDB ws (exercises db)).

(** *** DELETE FROM exercises WHERE id = i *)
Definition hit (env : Env) (i : uuid) (db : DB) (e : exercise_row) : bool :=
  JS.eqb (e_id e) i && owns_workout env (e_workout_id e) db.

Definition delete_exercise (env : Env) (i : uuid) (db : DB) : DB :=
  mkDB (workouts db) (filter (fun e => negb (hit env i db e)) (exercises db)).

(** *** UPDATE exercises SET ... WHERE id = i

    The column types, the policy on the old and on the new row, the primary
    key and the foreign key. *)
Fixpoint distinct_exercise_ids (l : list exercise_row) : bool :=
  match l with
  | [] => true
  | e :: l' => negb (has_exercise_id (e_id e) l') && distinct_exercise_ids l'
  end.

Definition fits (e : exercise_row) : bool :=
  in_integer (e_sets e) && in_integer (e_reps e) && in_decimal_10_2 (e_weight e).

Definition update_exercise (env : Env) (i : uuid)
    (set : exercise_row -> exercise_row) (db : DB) : result unit * DB :=
  let es := map (fun e => if hit env i db e then set e else e) (exercises db) in
  if negb (forallb (fun e => negb (hit env i db e)
                             || is_text (e_name (set e))
                                && is_text_or_null (e_notes (set e))) (exercises db))
  then (Err untranslatable_character, db)
  else if negb (forallb (fun e => negb (hit env i db e) || fits (set e)) (exercises db))
  then (Err numeric_out_of_range, db)
  else if negb (forallb (fun e => negb (hit env i db e)
                                  || owns_workout env (e_workout_id (set e)) db)
                        (exercises db))
  then (Err (rls_violation Exercises), db)
  else if negb (distinct_exercise_ids es) then (Err (unique_violation Exercises), db)
  else if negb (forallb (fun e => has_workout_id (e_workout_id e) db) es)
  then (Err foreign_key_violation, db)
  else (Ok tt, mkDB (workouts db) es).

(** *** JSON *)

Definition digit_char (z : Z) : N := Z.to_N (48 + z mod 10).

Definition pad2 (z : Z) : JS.jsstring := [digit_char (z / 10); digit_char z].

Definition pad4 (z : Z) : JS.jsstring := pad2 (z / 100) ++ pad2 z.

(** A [DATE] in a response body: [YYYY-MM-DD]. *)
Definition date_to_json (d : SqlDate) : JS.jsstring :=
  pad4 (year d) ++ [45%N] ++ pad2 (month d) ++ [45%N] ++ pad2 (day d).

End Store.

(* ================================================================= *)
(** ** What the pages show: toasts and navigation *)

Module UI.

Inductive title :=
| ErroAoCarregarTreinos          (* 'Erro ao carregar treinos' *)
| ErroAoCarregarHistorico        (* 'Erro ao carregar historico' *)
| NomeDoTreinoObrigatorio        (* 'Nome do treino obrigatorio' *)
| AdicionePeloMenosUmExercicio   (* 'Adicione pelo menos um exercicio' *)
| TreinoSalvo                    (* 'Treino salvo!' *)
| ErroAoSalvarTreino.            (* 'Erro ao salvar treino' *)

Inductive description :=
| message_of (e : Store.error)   (* [error.message] of a store error *)
| message_of_TypeError           (* [error.message] of reading [id] of null *)
| SeuTreinoFoiRegistrado.        (* 'Seu treino foi registrado com sucesso.' *)

Inductive variant := default | destructive.

Record toast := mkToast {
  t_title : title;
  t_description : option description;
  t_variant : variant
}.

Inductive route := Home | Auth | NewWorkout | HistoryPage.

Inductive event :=
| Toast (t : toast)
| Navigate (r : route).

End UI.

(* ================================================================= *)
(** ** Dashboard.tsx *)

Module Dashboard.

Record Workout := mkWorkout {
  id : JS.jsstring;
  name : JS.jsstring;
  date : JS.jsstring;
  notes : option JS.jsstring
}.

Record Stats := mkStats {
  totalWorkouts : nat;
  thisWeek : nat;
  thisMonth : nat
}.

(** The component state: three [useState] cells. *)
Record State := mkState {
  workouts : list Workout;
  stats : Stats;
  loading : bool
}.

Definition initial : State :=
  mkState [] (mkStats 0 0 0) true.

Definition setWorkouts (ws : list Workout) (s : State) : State :=
  mkState ws (stats s) (loading s).
Definition setStats (st : Stats) (s : State) : State :=
  mkState (workouts s) st (loading s).
Definition setLoading (b : bool) (s : State) : State :=
  mkState (workouts s) (stats s) b.

(** [now.getTime() - 7 * 24 * 60 * 60 * 1000] and the 30-day one. *)
Definition weekAgo (now : Z) : option Z := Some (now - 7 * 24 * 60 * 60 * 1000).
Definition monthAgo (now : Z) : option Z := Some (now - 30 * 24 * 60 * 60 * 1000).

(** [calculateStats]; [now] is the reading of [new Date()]. *)
Definition calculateStats (now : Z) (ws : list Workout) (s : State) : State :=
  let thisWeek :=
    length (filter (fun w => JS.Date_ge (JS.Date_parse (date w)) (weekAgo now)) ws) in
  let thisMonth :=
    length (filter (fun w => JS.Date_ge (JS.Date_parse (date w)) (monthAgo now)) ws) in
  setStats (mkStats (length ws) thisWeek thisMonth) s.

(** A row of [select('*')] as the page reads it. *)
Definition of_row (r : Store.workout_row) : Workout :=
  mkWorkout (Store.w_id r) (Store.w_name r)
            (Store.date_to_json (Store.w_date r)) (Store.w_notes r).

(** [fetchWorkouts]: [fault] is the error of the request when it fails,
    [env] what the store sees when it does not, [now] the clock reading of
    the [calculateStats] that follows. *)
Definition fetchWorkouts (fault : option Store.error) (env : Store.Env)
    (now : Z) (db : Store.DB) (s : State) : State * list UI.event :=
  match fault with
  | Some e =>
      (setLoading false s,
       [UI.Toast (UI.mkToast UI.ErroAoCarregarTreinos
                    (Some (UI.message_of e)) UI.destructive)])
  | None =>
      let data := map of_row (Store.select_workouts env (Some 5%nat) db) in
      (setLoading false (calculateStats now data (setWorkouts data s)), [])
  end.

End Dashboard.

(* ================================================================= *)
(** ** History.tsx *)

Module History.

Record Exercise := mkExercise {
  ex_id : JS.jsstring;
  ex_name : JS.jsstring;
  sets : Z;
  reps : Z;
  weight : Q;
  ex_notes : option JS.jsstring
}.

(** [exercises?] and [expanded?] are optional: [None] is [undefined]. *)
Record Workout := mkWorkout {
  id : JS.jsstring;
  name : JS.jsstring;
  date : JS.jsstring;
  notes : option JS.jsstring;
  exercises : option (list Exercise);
  expanded : option bool
}.

Record State := mkState {
  workouts : list Workout;
  loading : bool
}.

Definition initial : State := mkState [] true.

Definition setWorkouts (ws : list Workout) (s : State) : State :=
  mkState ws (loading s).
Definition setLoading (b : bool) (s : State) : State :=
  mkState (workouts s) b.

Definition exercise_of_row (r : Store.exercise_row) : Exercise :=
  mkExercise (Store.e_id r) (Store.e_name r) (Store.e_sets r) (Store.e_reps r)
             (inject_Z (Store.e_weight r) / 100)%Q (Store.e_notes r).

(** [fetchWorkouts].  [fault] is the error of the request for the workouts
    when it fails; [lost i] tells whether the request for the exercises of
    workout [i] fails, which the page takes for no exercises.  The requests
    for the exercises are joined in the order of the workouts. *)
Definition fetchWorkouts (fault : option Store.error) (lost : JS.jsstring -> bool)
    (env : Store.Env) (db : Store.DB) (s : State) : State * list UI.event :=
  match fault with
  | Some e =>
      (setLoading false s,
       [UI.Toast (UI.mkToast UI.ErroAoCarregarHistorico
                    (Some (UI.message_of e)) UI.destructive)])
  | None =>
      let workoutsWithExercises :=
        map (fun r =>
               let exercises :=
                 if lost (Store.w_id r) then []
                 else map exercise_of_row
                          (Store.select_exercises env (Store.w_id r) db) in
               mkWorkout (Store.w_id r) (Store.w_name r)
                         (Store.date_to_json (Store.w_date r)) (Store.w_notes r)
                         (Some exercises) (Some false))
            (Store.select_workouts env None db) in
      (setLoading false (setWorkouts workoutsWithExercises s), [])
  end.

(** [{ ...w, expanded: !w.expanded }] *)
Definition toggled (w : Workout) : Workout :=
  mkWorkout (id w) (name w) (date w) (notes w) (exercises w)
            (Some (negb (JS.truthy (expanded w)))).

Definition toggleWorkout (i : JS.jsstring) (s : State) : State :=
  setWorkouts (map (fun w => if JS.eqb (id w) i then toggled w else w)
                   (workouts s)) s.

End History.

(* ================================================================= *)
(** ** Workout.tsx *)

Module WorkoutPage.

Record Exercise := mkExercise {
  id : JS.jsstring;
  name : JS.jsstring;
  sets : Z;
  reps : Z;
  weight : Q;
  notes : JS.jsstring
}.

Record State := mkState {
  workoutName : JS.jsstring;
  workoutNotes : JS.jsstring;
  exercises : list Exercise;
  saving : bool
}.

Definition setSaving (b : bool) (s : State) : State :=
  mkState (workoutName s) (workoutNotes s) (exercises s) b.

(** One exchange with the store: the request fails on its way with
    [fault], or reaches the store, which runs it in [env]. *)
Record exchange := mkExchange {
  fault : option Store.error;
  env : Store.Env
}.

Definition request {A} (x : exchange)
    (statement : Store.Env -> Store.DB -> Store.result A * Store.DB)
    (db : Store.DB) : Store.result A * Store.DB :=
  match fault x with
  | Some e => (Store.Err e, db)
  | None => statement (env x) db
  end.

Record outcome := mkOutcome {
  state : State;
  events : list UI.event;
  store : Store.DB
}.

Definition exercisesData (workout : Store.workout_row) (exs : list Exercise)
    : list Store.new_exercise :=
  map (fun ex => Store.mkNewExercise (Store.w_id workout) (name ex) (sets ex)
                   (reps ex) (weight ex) (notes ex)) exs.

(** The [catch] and [finally] blocks. *)
Definition failed (d : UI.description) (s : State) (db : Store.DB) : outcome :=
  mkOutcome (setSaving false s)
            [UI.Toast (UI.mkToast UI.ErroAoSalvarTreino (Some d) UI.destructive)]
            db.

(** [saveWorkout].  [user] is the user of the authentication context,
    [x1] and [x2] the exchanges of the two inserts. *)
Definition saveWorkout (user : option Store.uuid) (x1 x2 : exchange)
    (s : State) (db : Store.DB) : outcome :=
  if negb (JS.truthy_string (JS.trim (workoutName s))) then
    mkOutcome s [UI.Toast (UI.mkToast UI.NomeDoTreinoObrigatorio None UI.destructive)] db
  else if (length (exercises s) =? 0)%nat then
    mkOutcome s [UI.Toast (UI.mkToast UI.AdicionePeloMenosUmExercicio None UI.destructive)] db
  else
    let s := setSaving true s in
    match user with
    | None => failed UI.message_of_TypeError s db
    | Some uid =>
        match request x1 (fun e => Store.insert_workout e uid (workoutName s)
                                     (workoutNotes s)) db with
        | (Store.Err workoutError, db1) =>
            failed (UI.message_of workoutError) s db1
        | (Store.Ok workout, db1) =>
            match request x2 (fun e => Store.insert_exercises e
                                         (exercisesData workout (exercises s))) db1 with
            | (Store.Err exercisesError, db2) =>
                failed (UI.message_of exercisesError) s db2
            | (Store.Ok _, db2) =>
                mkOutcome (setSaving false s)
                  [UI.Toast (UI.mkToast UI.TreinoSalvo
                               (Some UI.SeuTreinoFoiRegistrado) UI.default);
                   UI.Navigate UI.Home]
                  db2
            end
        end
    end.

Definition setExercises (exs : list Exercise) (s : State) : State :=
  mkState (workoutName s) (workoutNotes s) exs (saving s).

(** [addExercise]; [uuid] is the draw of [crypto.randomUUID()]. *)
Definition addExercise (uuid : JS.jsstring) (s : State) : State :=
  setExercises (exercises s ++ [mkExercise uuid [] 0 0 0 []]) s.

(** [removeExercise] *)
Definition removeExercise (i : JS.jsstring) (s : State) : State :=
  setExercises (filter (fun ex => negb (JS.eqb (id ex) i)) (exercises s)) s.

(** A field of [Exercise] with a value for it: the [field] and [value] of
    [updateExercise], taken together so that the value has the type of the
    field. *)
Inductive assignment :=
| to_id (v : JS.jsstring)
| to_name (v : JS.jsstring)
| to_sets (v : Z)
| to_reps (v : Z)
| to_weight (v : Q)
| to_notes (v : JS.jsstring).

(** [{ ...ex, [field]: value }] *)
Definition assign (a : assignment) (ex : Exercise) : Exercise :=
  match a with
  | to_id v => mkExercise v (name ex) (sets ex) (reps ex) (weight ex) (notes ex)
  | to_name v => mkExercise (id ex) v (sets ex) (reps ex) (weight ex) (notes ex)
  | to_sets v => mkExercise (id ex) (name ex) v (reps ex) (weight ex) (notes ex)
  | to_reps v => mkExercise (id ex) (name ex) (sets ex) v (weight ex) (notes ex)
  | to_weight v => mkExercise (id ex) (name ex) (sets ex) (reps ex) v (notes ex)
  | to_notes v => mkExercise (id ex) (name ex) (sets ex) (reps ex) (weight ex) v
  end.

(** [updateExercise] *)
Definition updateExercise (i : JS.jsstring) (a : assignment) (s : State) : State :=
  setExercises (map (fun ex => if JS.eqb (id ex) i then assign a ex else ex)
                    (exercises s)) s.

(** The [onChange] of the inputs for sets and for reps:
    [updateExercise(exercise.id, 'sets', parseInt(e.target.value) || 0)]. *)
Definition onSetsChange (i value : JS.jsstring) (s : State) : State :=
  updateExercise i (to_sets (JS.or_zero (JS.parseInt value))) s.

Definition onRepsChange (i value : JS.jsstring) (s : State) : State :=
  updateExercise i (to_reps (JS.or_zero (JS.parseInt value))) s.

End WorkoutPage.

(* ================================================================= *)
(** ** Auth.tsx *)

Module AuthPage.

Inductive field := Email | Password | Username.

(** The messages of the issues: the two that [authSchema] gives, and the
    one that [max(n)] has when given none. *)
Inductive message :=
| EmailInvalido                 (* 'Email invalido' *)
| SenhaMinimo6                  (* 'Senha deve ter no minimo 6 caracteres' *)
| AtMost (n : Z).               (* 'String must contain at most n character(s)' *)

(** [errors]: a record with one optional message per field. *)
Record Errors := mkErrors {
  e_email : option message;
  e_password : option message;
  e_username : option message
}.

Definition no_errors : Errors := mkErrors None None None.

Record State := mkState {
  isLogin : bool;
  email : JS.jsstring;
  password : JS.jsstring;
  username : JS.jsstring;
  errors : Errors
}.

Definition initial : State := mkState true [] [] [] no_errors.

Definition setErrors (e : Errors) (s : State) : State :=
  mkState (isLogin s) (email s) (password s) (username s) e.

Definition len (v : JS.jsstring) : Z := Z.of_nat (length v).

(** The issues of [authSchema.parse], in the order of the fields and, for a
    field, of its checks.  [is_email] is the test that [email()] applies. *)
Definition issues (is_email : JS.jsstring -> bool)
    (email password : JS.jsstring) (username : option JS.jsstring)
    : list (field * message) :=
  (if is_email email then [] else [(Email, EmailInvalido)])
  ++ (if 255 <? len email then [(Email, AtMost 255)] else [])
  ++ (if len password <? 6 then [(Password, SenhaMinimo6)] else [])
  ++ (if 100 <? len password then [(Password, AtMost 100)] else [])
  ++ match username with
     | Some u => if 100 <? len u then [(Username, AtMost 100)] else []
     | None => []
     end.

(** [newErrors[err.path[0].toString()] = err.message] *)
Definition put (e : Errors) (i : field * message) : Errors :=
  match fst i with
  | Email => mkErrors (Some (snd i)) (e_password e) (e_username e)
  | Password => mkErrors (e_email e) (Some (snd i)) (e_username e)
  | Username => mkErrors (e_email e) (e_password e) (Some (snd i))
  end.

(** [validateForm] *)
Definition validateForm (is_email : JS.jsstring -> bool) (s : State) : bool * State :=
  match issues is_email (email s) (password s)
               (if isLogin s then None else Some (username s)) with
  | [] => (true, setErrors no_errors s)
  | errs => (false, setErrors (fold_left put errs no_errors) s)
  end.

(** The calls of the authentication context. *)
Inductive call :=
| signIn (email password : JS.jsstring)
| signUp (email password username : JS.jsstring).

(** [handleSubmit] *)
Definition handleSubmit (is_email : JS.jsstring -> bool) (s : State)
    : option call * State :=
  let (ok, s') := validateForm is_email s in
  if negb ok then (None, s')
  else if isLogin s' then (Some (signIn (email s') (password s')), s')
  else (Some (signUp (email s') (password s') (username s')), s').

(** The button under the form: [setIsLogin(!isLogin); setErrors({})]. *)
Definition switchMode (s : State) : State :=
  mkState (negb (isLogin s)) (email s) (password s) (username s) no_errors.

End AuthPage.

(* ================================================================= *)
(** ** The aggregation as the specification words it *)

Module Spec.

(** The calendar date (UTC) of an instant, as a day number. *)
Definition today (now : Z) : Z := now / JS.msPerDay.

(** A workout whose date is on or after day [d0].  A workout whose date
    does not parse is in no window. *)
Definition on_or_after (d0 : Z) (w : Dashboard.Workout) : bool :=
  match JS.parse_day (Dashboard.date w) with
  | Some d => d0 <=? d
  | None => false
  end.

Definition count_since (d0 : Z) (ws : list Dashboard.Workout) : nat :=
  length (filter (on_or_after d0) ws).

(** Counts on calendar dates, boundaries included, whatever the time of
    day of [now]. *)
Definition computeStats (now : Z) (ws : list Dashboard.Workout) : Dashboard.Stats :=
  Dashboard.mkStats (length ws)
                    (count_since (today now - 7) ws)
                    (count_since (today now - 30) ws).

End Spec.

(* ================================================================= *)
(** ** Definitions used by the statements *)

Import WorkoutPage.

(** What the time of day of [now] adds to the first day of a window: nothing
    at midnight UTC, one day at any later time. *)
Definition past_midnight (now : Z) : Z :=
  if now mod JS.msPerDay =? 0 then 0 else 1.

(** The scenario of the specification. *)
Definition dated (d : string) : Dashboard.Workout :=
  Dashboard.mkWorkout (JS.lit "id") (JS.lit "Treino") (JS.lit d) None.

Definition scenario : list Dashboard.Workout :=
  [dated "2025-01-30"; dated "2025-01-25"; dated "2025-01-01"; dated "2024-12-01"].

(** 2025-01-31T00:00:00.000Z *)
Definition jan31 : Z := 20119 * JS.msPerDay.

(** What one toggle does to one workout. *)
Definition toggle_of (i : JS.jsstring) (w w' : History.Workout) : Prop :=
  if JS.eqb (History.id w) i then
    History.id w' = History.id w
    /\ History.name w' = History.name w
    /\ History.date w' = History.date w
    /\ History.notes w' = History.notes w
    /\ History.exercises w' = History.exercises w
    /\ JS.truthy (History.expanded w') = negb (JS.truthy (History.expanded w))
  else w' = w.

(** The workouts with identifier [i] all have their [expanded] flag set. *)
Definition expanded_set (i : JS.jsstring) (ws : list History.Workout) : Prop :=
  Forall (fun w => JS.eqb (History.id w) i = true -> History.expanded w <> None) ws.

Definition collapsed (i : string) : History.Workout :=
  History.mkWorkout (JS.lit i) (JS.lit "Treino") (JS.lit "2025-01-30") None
                    (Some []) (Some false).

(** The statements of the store, and a run of them. *)
Inductive statement :=
| InsertWorkout (user_id : Store.uuid) (name notes : JS.jsstring)
| InsertExercises (xs : list Store.new_exercise)
| DeleteWorkout (i : Store.uuid)
| UpdateWorkout (i : Store.uuid) (set : Store.workout_row -> Store.workout_row)
| DeleteExercise (i : Store.uuid)
| UpdateExercise (i : Store.uuid) (set : Store.exercise_row -> Store.exercise_row).

Definition run (env : Store.Env) (st : statement) (db : Store.DB) : Store.DB :=
  match st with
  | InsertWorkout u n nt => snd (Store.insert_workout env u n nt db)
  | InsertExercises xs => snd (Store.insert_exercises env xs db)
  | DeleteWorkout i => Store.delete_workout env i db
  | UpdateWorkout i set => snd (Store.update_workout env i set db)
  | DeleteExercise i => Store.delete_exercise env i db
  | UpdateExercise i set => snd (Store.update_exercise env i set db)
  end.

Inductive reachable : Store.DB -> Prop :=
| reachable_empty : reachable Store.empty
| reachable_run env st db : reachable db -> reachable (run env st db).

(** Every exercise references a workout of the store. *)
Definition referential_integrity (db : Store.DB) : Prop :=
  Forall (fun e => Store.has_workout_id (Store.e_workout_id e) db = true)
         (Store.exercises db).

(** A row as the store keeps it for a submitted exercise. *)
Definition stored_as (x : Store.new_exercise) (r : Store.exercise_row) : Prop :=
  Store.e_workout_id r = Store.n_workout_id x
  /\ Store.e_name r = Store.n_name x
  /\ Store.e_sets r = Store.n_sets x
  /\ Store.e_reps r = Store.n_reps x
  /\ Store.e_weight r = Store.round_hundredths (Store.n_weight x)
  /\ Store.e_notes r = Some (Store.n_notes x).

Definition validation_toast (t : UI.title) : UI.event :=
  UI.Toast (UI.mkToast t None UI.destructive).

Definition success_events : list UI.event :=
  [UI.Toast (UI.mkToast UI.TreinoSalvo (Some UI.SeuTreinoFoiRegistrado) UI.default);
   UI.Navigate UI.Home].

(** The two requests of [saveWorkout]. *)
Definition insert_workout_request (uid : Store.uuid) (x1 : exchange) (s : State)
    (db : Store.DB) : Store.result Store.workout_row * Store.DB :=
  request x1 (fun e => Store.insert_workout e uid (workoutName s) (workoutNotes s)) db.

Definition insert_exercises_request (workout : Store.workout_row) (x2 : exchange)
    (s : State) (db1 : Store.DB) : Store.result unit * Store.DB :=
  request x2 (fun e => Store.insert_exercises e (exercisesData workout (exercises s))) db1.

Definition alice : Store.uuid := JS.lit "alice".

(** A statement of Alice's session at time [t]; [seed] names its draws of
    [gen_random_uuid]. *)
Definition session (t : Z) (seed : string) : Store.Env :=
  Store.mkEnv (Some alice) t (Store.mkDate 2025 1 31)
              (fun k => JS.lit seed ++ [48 + N.of_nat k]%N).

Definition reaches (t : Z) (seed : string) : exchange :=
  mkExchange None (session t seed).

(** The exercise that [addExercise] puts in the form, left as it is. *)
Definition unfilled : Exercise := mkExercise (JS.lit "c0") [] 0 0 0 [].

Definition squat (sets : Z) : Exercise :=
  mkExercise (JS.lit "c1") (JS.lit "Agachamento") sets 10 (125 # 2) [].

Definition form (exs : list Exercise) : State :=
  mkState (JS.lit "Treino de Pernas") [] exs false.

(** An exercise that the specification has [addExercises] refuse. *)
Definition invalid (ex : Exercise) : bool :=
  negb (JS.truthy_string (name ex))
  || (sets ex <? 0) || (reps ex <? 0) || (Qnum (weight ex) <? 0).

(** The store after Alice saved one workout with one exercise. *)
Definition one_workout : Store.DB :=
  store (saveWorkout (Some alice) (reaches 1000 "w") (reaches 2000 "e")
                     (form [squat 3]) Store.empty).

Definition legs : Store.workout_row :=
  Store.mkWorkoutRow (JS.lit "w0") alice (JS.lit "Treino de Pernas")
                     (Store.mkDate 2025 1 31) (Some []) 1000 1000.

(** A calendar date that the [DATE] column prints with a four-digit year. *)
Definition valid_date (d : Store.SqlDate) : Prop :=
  0 <= Store.year d <= 9999
  /\ 1 <= Store.month d <= 12
  /\ 1 <= Store.day d <= JS.DaysInMonth (Store.year d) (Store.month d).

Definition day_number (d : Store.SqlDate) : Z :=
  JS.MakeDay (Store.year d) (Store.month d) (Store.day d).

(** [v] may come before [w] in a list ordered by date, newest first. *)
Definition not_older (v w : Store.workout_row) : Prop :=
  Store.date_ltb (Store.w_date v) (Store.w_date w) = false.

(** The rows of [workouts] that the caller may see. *)
Definition own_workouts (env : Store.Env) (db : Store.DB) : list Store.workout_row :=
  filter (fun w => Store.is_caller env (Store.w_user_id w)) (Store.workouts db).

(** An exercise that the store takes as far as its column types go. *)
Definition in_range (x : Store.new_exercise) : bool :=
  Store.in_integer (Store.n_sets x) && Store.in_integer (Store.n_reps x)
  && Store.in_decimal_10_2 (Store.round_hundredths (Store.n_weight x)).

(** The states of the history page: the first one, and those that
    [fetchWorkouts] and [toggleWorkout] lead to. *)
Inductive visited : History.State -> Prop :=
| visited_initial : visited History.initial
| visited_fetch fault lost env db s :
    visited s -> visited (fst (History.fetchWorkouts fault lost env db s))
| visited_toggle i s : visited s -> visited (History.toggleWorkout i s).

(** The number that a list of decimal digits writes, most significant
    first, and its characters. *)
Definition decimal (ds : list Z) : Z := fold_left (fun a d => 10 * a + d) ds 0.

Definition numeral (ds : list Z) : JS.jsstring := map (fun d => Z.to_N (48 + d)) ds.

Definition is_digits (ds : list Z) : Prop := Forall (fun d => 0 <= d <= 9) ds.

(** What [authSchema] asks of each field. *)
Definition email_ok (is_email : JS.jsstring -> bool) (s : AuthPage.State) : bool :=
  is_email (AuthPage.email s) && (AuthPage.len (AuthPage.email s) <=? 255).

Definition password_ok (s : AuthPage.State) : bool :=
  (6 <=? AuthPage.len (AuthPage.password s))
  && (AuthPage.len (AuthPage.password s) <=? 100).

Definition username_ok (s : AuthPage.State) : bool :=
  AuthPage.isLogin s || (AuthPage.len (AuthPage.username s) <=? 100).

Definition bob : Store.uuid := JS.lit "bob".

(** A workout of Bob. *)
Definition bobs : Store.workout_row :=
  Store.mkWorkoutRow (JS.lit "w1") bob (JS.lit "Treino de Peito")
                     (Store.mkDate 2025 1 30) None 500 500.

(** A store with a workout of Alice and one of Bob, an exercise in each. *)
Definition two_users : Store.DB :=
  Store.mkDB [legs; bobs]
    [Store.mkExerciseRow (JS.lit "e0") (JS.lit "w0") (JS.lit "Agachamento")
                         3 10 6250 (Some []) 2000;
     Store.mkExerciseRow (JS.lit "e1") (JS.lit "w1") (JS.lit "Supino")
                         4 8 8000 None 600].

(** An update that renames a workout and tries to set its [updated_at]. *)
Definition rename (n : string) (w : Store.workout_row) : Store.workout_row :=
  Store.mkWorkoutRow (Store.w_id w) (Store.w_user_id w) (JS.lit n) (Store.w_date w)
                     (Store.w_notes w) (Store.w_created_at w) 0.

(** No two workouts and no two exercises share an id. *)
Definition keys_distinct (db : Store.DB) : Prop :=
  NoDup (map Store.w_id (Store.workouts db))
  /\ NoDup (map Store.e_id (Store.exercises db)).

(** A workout of Alice dated the [d]th of January 2025. *)
Definition on_day (i : string) (d : Z) : Store.workout_row :=
  Store.mkWorkoutRow (JS.lit i) alice (JS.lit "Treino") (Store.mkDate 2025 1 d)
                     None 0 0.

(** The toast of the [catch] block of [saveWorkout]. *)
Definition save_failed (d : UI.description) : list UI.event :=
  [UI.Toast (UI.mkToast UI.ErroAoSalvarTreino (Some d) UI.destructive)].

(** An assignment to a field other than [id]. *)
Definition keeps_id (a : assignment) : Prop :=
  match a with to_id _ => False | _ => True end.

(** A string that does not start with [0x] or [0X]. *)
Definition no_hex_prefix (S : JS.jsstring) : Prop :=
  match S with
  | c :: x :: _ => ((c =? 48) && ((x =? 120) || (x =? 88)))%N = false
  | _ => True
  end.

(** Two forms for creating an account, the first with a short password. *)
Definition sign_up_form : AuthPage.State :=
  AuthPage.mkState false (JS.lit "a@b.co") (JS.lit "12345") (JS.lit "ana")
                   AuthPage.no_errors.

Definition sign_up_ok : AuthPage.State :=
  AuthPage.mkState false (JS.lit "a@b.co") (JS.lit "123456") (JS.lit "ana")
                   AuthPage.no_errors.

(** A workout dated as the store dates it: a calendar date written
    [YYYY-MM-DD], which [new Date] reads as midnight UTC of that day.  What
    [new Date] makes of any other string is left to the engine and is not
    modelled. *)
Definition calendar_dated (w : Dashboard.Workout) : Prop :=
  JS.parse_day (Dashboard.date w) <> None.







(** The row that the store keeps for the [k]th exercise of a statement, and
    the rows for a batch whose first exercise is the [k]th. *)
Definition stored_row (env : Store.Env) (k : nat) (x : Store.new_exercise)
    : Store.exercise_row :=
  Store.mkExerciseRow (Store.gen_random_uuid env k) (Store.n_workout_id x)
    (Store.n_name x) (Store.n_sets x) (Store.n_reps x)
    (Store.round_hundredths (Store.n_weight x)) (Some (Store.n_notes x))
    (Store.now env).

Fixpoint rows_from (env : Store.Env) (k : nat) (xs : list Store.new_exercise)
    : list Store.exercise_row :=
  match xs with
  | [] => []
  | x :: xs' => stored_row env k x :: rows_from env (S k) xs'
  end.





(* ================================================================= *)
(** ** Properties of the aggregation *)

Section Counting.

Context {A : Type}.

Lemma filter_length_le (p : A -> bool) (l : list A) :
  (length (filter p l) <= length l)%nat.
Proof.
  induction l as [|a l IH]; simpl; [lia|].
  destruct (p a); simpl; lia.
Qed.

Lemma filter_length_mono (p q : A -> bool) (l : list A) :
  (forall a, p a = true -> q a = true) ->
  (length (filter p l) <= length (filter q l))%nat.
Proof.
  intros Hpq. induction l as [|a l IH]; simpl; [lia|].
  destruct (p a) eqn:Hp.
  - rewrite (Hpq a Hp). simpl. lia.
  - destruct (q a); simpl; lia.
Qed.

Lemma filter_length_ext (p q : A -> bool) (l : list A) :
  (forall a, p a = q a) -> length (filter p l) = length (filter q l).
Proof.
  intros Hpq. induction l as [|a l IH]; simpl; [reflexivity|].
  rewrite Hpq. destruct (q a); simpl; congruence.
Qed.

End Counting.

Example parse_day_epoch : JS.parse_day (JS.lit "1970-01-01") = Some 0.
Proof. reflexivity. Qed.

Example parse_day_jan31 : JS.parse_day (JS.lit "2025-01-31") = Some 20119.
Proof. reflexivity. Qed.

Example parse_day_leap : JS.parse_day (JS.lit "2024-02-29") = Some 19782.
Proof. reflexivity. Qed.

Example parse_day_no_such_day : JS.parse_day (JS.lit "2025-02-29") = None.
Proof. reflexivity. Qed.

Example Date_parse_other_form : JS.Date_parse (JS.lit "30/01/2025") = None.
Proof. reflexivity. Qed.

Example trim_both_ends : JS.trim (JS.lit "  a b  ") = JS.lit "a b".
Proof. reflexivity. Qed.

Example date_to_json_jan31 :
  Store.date_to_json (Store.mkDate 2025 1 31) = JS.lit "2025-01-31".
Proof. reflexivity. Qed.

(** The comparison of instants, read on calendar days. *)
Lemma in_window_days (k now : Z) (w : Dashboard.Workout) :
  JS.Date_ge (JS.Date_parse (Dashboard.date w)) (Some (now - k * JS.msPerDay))
  = Spec.on_or_after (Spec.today now - k + past_midnight now) w.
Proof.
  unfold Spec.on_or_after, Spec.today, past_midnight, JS.Date_parse.
  destruct (JS.parse_day (Dashboard.date w)) as [d|];
    cbn [option_map JS.Date_ge]; [|reflexivity].
  unfold JS.msPerDay.
  pose proof (Z.div_mod now 86400000 ltac:(lia)) as Hdm.
  pose proof (Z.mod_pos_bound now 86400000 ltac:(lia)) as Hr.
  destruct (Z.eqb_spec (now mod 86400000) 0) as [H0|H0];
    apply Bool.eq_true_iff_eq; rewrite !Z.leb_le; lia.
Qed.

(** C1 (as amended): for workouts dated as the store dates them, by a
    calendar date written [YYYY-MM-DD], [thisWeek] and [thisMonth] count the
    workouts whose date, taken at midnight UTC, is at or after the instant
    [now] minus 7 (30) times 24 hours.  On calendar dates: the workouts dated
    on or after the UTC date of [now] minus 7 (30) days when [now] is
    midnight UTC, and on or after that date minus 6 (29) days at any other
    time of day. *)
Theorem calculateStats_windows (now : Z) (ws : list Dashboard.Workout)
    (s : Dashboard.State) :
  Forall calendar_dated ws ->
  let st := Dashboard.stats (Dashboard.calculateStats now ws s) in
  Dashboard.thisWeek st = Spec.count_since (Spec.today now - 7 + past_midnight now) ws
  /\ Dashboard.thisMonth st = Spec.count_since (Spec.today now - 30 + past_midnight now) ws.
Proof.
  intros _.
  simpl. unfold Spec.count_since, Dashboard.weekAgo, Dashboard.monthAgo. split.
  - apply filter_length_ext. intro w.
    rewrite <- (in_window_days 7). reflexivity.
  - apply filter_length_ext. intro w.
    rewrite <- (in_window_days 30). reflexivity.
Qed.

Lemma calculateStats_windows_witness :
  Dashboard.thisWeek
    (Dashboard.stats (Dashboard.calculateStats (jan31 + 12 * 3600000)
                        [dated "2025-01-24"; dated "2025-01-25"; dated "2025-01-01"]
                        Dashboard.initial))
  = Spec.count_since (Spec.today (jan31 + 12 * 3600000) - 7
                      + past_midnight (jan31 + 12 * 3600000))
                     [dated "2025-01-24"; dated "2025-01-25"; dated "2025-01-01"]
  /\ Dashboard.thisMonth
       (Dashboard.stats (Dashboard.calculateStats (jan31 + 12 * 3600000)
                           [dated "2025-01-24"; dated "2025-01-25"; dated "2025-01-01"]
                           Dashboard.initial))
     = Spec.count_since (Spec.today (jan31 + 12 * 3600000) - 30
                         + past_midnight (jan31 + 12 * 3600000))
                        [dated "2025-01-24"; dated "2025-01-25"; dated "2025-01-01"].
Proof.
  apply (calculateStats_windows (jan31 + 12 * 3600000)
           [dated "2025-01-24"; dated "2025-01-25"; dated "2025-01-01"]
           Dashboard.initial).
  repeat constructor; vm_compute; discriminate.
Defined.

Example calculateStats_windows_at_noon :
  Dashboard.stats (Dashboard.calculateStats (jan31 + 12 * 3600000)
                     [dated "2025-01-24"; dated "2025-01-25"; dated "2025-01-01"]
                     Dashboard.initial)
  = Dashboard.mkStats 3 1 2.
Proof. vm_compute. reflexivity. Qed.

(** C1 (as stated) fails: at noon of 2025-01-31 a workout dated 2025-01-24,
    seven calendar days before, is not counted in [thisWeek]. *)
Lemma calculateStats_not_calendar_windows :
  ~ (forall now ws s,
        Dashboard.thisWeek (Dashboard.stats (Dashboard.calculateStats now ws s))
        = Dashboard.thisWeek (Spec.computeStats now ws)
        /\ Dashboard.thisMonth (Dashboard.stats (Dashboard.calculateStats now ws s))
           = Dashboard.thisMonth (Spec.computeStats now ws)).
Proof.
  intro H.
  destruct (H (jan31 + 12 * 3600000) [dated "2025-01-24"] Dashboard.initial) as [Hw _].
  vm_compute in Hw. discriminate Hw.
Qed.

(** The four dates of the scenario, as instants. *)
Lemma scenario_dates :
  JS.Date_parse (Dashboard.date (dated "2025-01-30")) = Some (jan31 - 1 * JS.msPerDay)
  /\ JS.Date_parse (Dashboard.date (dated "2025-01-25")) = Some (jan31 - 6 * JS.msPerDay)
  /\ JS.Date_parse (Dashboard.date (dated "2025-01-01")) = Some (jan31 - 30 * JS.msPerDay)
  /\ JS.Date_parse (Dashboard.date (dated "2024-12-01")) = Some (jan31 - 61 * JS.msPerDay).
Proof. vm_compute. repeat split. Qed.

(** C2 (as amended): with [now] on 2025-01-31 (UTC) and the four workouts of
    the scenario, [totalWorkouts] is 4 and [thisWeek] is 2; [thisMonth] is 3
    when [now] is midnight UTC exactly, and 2 at any later time of that day,
    the workout of 2025-01-01 then being more than 30 times 24 hours old. *)
Theorem scenario_stats (now : Z) (s : Dashboard.State) :
  jan31 <= now < jan31 + JS.msPerDay ->
  Dashboard.stats (Dashboard.calculateStats now scenario s)
  = Dashboard.mkStats 4 2 (if now =? jan31 then 3%nat else 2%nat).
Proof.
  intros Hday.
  unfold Dashboard.calculateStats, Dashboard.setStats, Dashboard.stats.
  destruct scenario_dates as (H1 & H2 & H3 & H4).
  unfold scenario. cbn [filter]. rewrite H1, H2, H3, H4.
  unfold Dashboard.weekAgo, Dashboard.monthAgo, JS.Date_ge.
  unfold jan31, JS.msPerDay in *.
  repeat match goal with
         | |- context [?a <=? ?b] => destruct (Z.leb_spec a b); try lia
         end.
  all: destruct (Z.eqb_spec now (20119 * 86400000)); try lia; reflexivity.
Qed.

Lemma scenario_stats_witness :
  Dashboard.stats (Dashboard.calculateStats (jan31 + 12 * 3600000) scenario
                     Dashboard.initial)
  = Dashboard.mkStats 4 2 2.
Proof.
  apply (scenario_stats (jan31 + 12 * 3600000) Dashboard.initial).
  vm_compute. split; [discriminate | reflexivity].
Defined.

Example scenario_at_midnight :
  Dashboard.stats (Dashboard.calculateStats jan31 scenario Dashboard.initial)
  = Dashboard.mkStats 4 2 3.
Proof. vm_compute. reflexivity. Qed.

(** C2 (as stated) fails: at noon of 2025-01-31 [thisMonth] is 2, not 3. *)
Lemma scenario_not_3_all_day :
  ~ (forall now s,
        jan31 <= now < jan31 + JS.msPerDay ->
        Dashboard.stats (Dashboard.calculateStats now scenario s)
        = Dashboard.mkStats 4 2 3).
Proof.
  intro H.
  assert (Hnoon : jan31 <= jan31 + 12 * 3600000 < jan31 + JS.msPerDay)
    by (vm_compute; split; [discriminate | reflexivity]).
  specialize (H _ Dashboard.initial Hnoon).
  vm_compute in H. discriminate H.
Qed.

(** Given the reading of the clock, [calculateStats] writes the statistics
    and nothing else, whatever the state it starts from. *)
Lemma calculateStats_deterministic (now : Z) (ws : list Dashboard.Workout)
    (s1 s2 : Dashboard.State) :
  Dashboard.stats (Dashboard.calculateStats now ws s1)
  = Dashboard.stats (Dashboard.calculateStats now ws s2)
  /\ Dashboard.calculateStats now ws (Dashboard.calculateStats now ws s1)
     = Dashboard.calculateStats now ws s1
  /\ Dashboard.workouts (Dashboard.calculateStats now ws s1) = Dashboard.workouts s1
  /\ Dashboard.loading (Dashboard.calculateStats now ws s1) = Dashboard.loading s1.
Proof.
  unfold Dashboard.calculateStats, Dashboard.setStats.
  cbn [Dashboard.stats Dashboard.workouts Dashboard.loading].
  repeat split.
Qed.

Lemma select_workouts_limit (env : Store.Env) (n : nat) (db : Store.DB) :
  (length (Store.select_workouts env (Some n) db) <= n)%nat.
Proof. unfold Store.select_workouts. apply firstn_le_length. Qed.

Lemma calculateStats_ordered (now : Z) (ws : list Dashboard.Workout)
    (s : Dashboard.State) :
  let st := Dashboard.stats (Dashboard.calculateStats now ws s) in
  (Dashboard.thisWeek st <= Dashboard.thisMonth st)%nat
  /\ (Dashboard.thisMonth st <= Dashboard.totalWorkouts st)%nat
  /\ Dashboard.totalWorkouts st = length ws.
Proof.
  cbn [Dashboard.calculateStats Dashboard.setStats Dashboard.stats
       Dashboard.thisWeek Dashboard.thisMonth Dashboard.totalWorkouts].
  split; [|split; [apply filter_length_le | reflexivity]].
  apply filter_length_mono. intros w.
  unfold Dashboard.weekAgo, Dashboard.monthAgo, JS.Date_ge.
  destruct (JS.Date_parse (Dashboard.date w)) as [t|]; [|discriminate].
  rewrite !Z.leb_le. lia.
Qed.

(** C9: whatever the workouts and the instant, [thisWeek] is at most
    [thisMonth], which is at most [totalWorkouts]; and the statistics that
    the dashboard's [fetchWorkouts] computes, over the five rows at most that
    its request returns, have [totalWorkouts] at most 5 whatever the store
    holds; a failed request leaves the statistics as they were, all zero
    at first. *)
Theorem stats_ordered_and_capped :
  (forall now ws s,
      let st := Dashboard.stats (Dashboard.calculateStats now ws s) in
      (Dashboard.thisWeek st <= Dashboard.thisMonth st
       <= Dashboard.totalWorkouts st)%nat)
  /\ (forall env now db s,
         let st := Dashboard.stats
                     (fst (Dashboard.fetchWorkouts None env now db s)) in
         (Dashboard.totalWorkouts st <= 5)%nat
         /\ (Dashboard.thisWeek st <= Dashboard.thisMonth st
             <= Dashboard.totalWorkouts st)%nat)
  /\ (forall e env now db s,
         Dashboard.stats (fst (Dashboard.fetchWorkouts (Some e) env now db s))
         = Dashboard.stats s)
  /\ Dashboard.stats Dashboard.initial = Dashboard.mkStats 0 0 0.
Proof.
  split; [|split; [|split; [reflexivity | reflexivity]]].
  - intros now ws s. destruct (calculateStats_ordered now ws s) as (H1 & H2 & _).
    split; assumption.
  - intros env now db s.
    cbn [Dashboard.fetchWorkouts fst Dashboard.setLoading Dashboard.stats].
    match goal with
    | |- context [Dashboard.calculateStats now ?d ?s'] =>
        destruct (calculateStats_ordered now d s') as (H1 & H2 & H3);
        set (st := Dashboard.stats (Dashboard.calculateStats now d s')) in *
    end.
    cbn zeta. split; [|split; assumption].
    rewrite H3, length_map. apply select_workouts_limit.
Qed.

(* ================================================================= *)
(** ** Properties of the history page *)

Lemma toggled_twice (w : History.Workout) :
  History.expanded w <> None -> History.toggled (History.toggled w) = w.
Proof.
  destruct w as [i n d nt ex [[|]|]]; intros H; try reflexivity.
  now destruct H.
Qed.

Lemma toggle_map_twice (i : JS.jsstring) (ws : list History.Workout) :
  expanded_set i ws ->
  map (fun w => if JS.eqb (History.id w) i then History.toggled w else w)
      (map (fun w => if JS.eqb (History.id w) i then History.toggled w else w) ws)
  = ws.
Proof.
  induction 1 as [|w ws Hw _ IH]; [reflexivity|].
  cbn [map]. rewrite IH. f_equal.
  destruct (JS.eqb (History.id w) i) eqn:E.
  - cbn [History.toggled History.id]. rewrite E. apply toggled_twice. auto.
  - rewrite E. reflexivity.
Qed.

(** After [fetchWorkouts] every workout of the page has its flag set, and
    [toggleWorkout] keeps it so. *)
Lemma fetchWorkouts_expanded_set fault lost env db s i :
  expanded_set i (History.workouts s) ->
  expanded_set i (History.workouts (fst (History.fetchWorkouts fault lost env db s))).
Proof.
  intros Hs. destruct fault as [e|]; [exact Hs|].
  cbn [History.fetchWorkouts fst History.setLoading History.setWorkouts
       History.workouts].
  apply Forall_forall. intros w Hin _.
  apply in_map_iff in Hin. destruct Hin as (r & <- & _). discriminate.
Qed.

Lemma toggleWorkout_expanded_set j s i :
  expanded_set i (History.workouts s) ->
  expanded_set i (History.workouts (History.toggleWorkout j s)).
Proof.
  cbn [History.toggleWorkout History.setWorkouts History.workouts].
  unfold expanded_set. rewrite !Forall_forall. intros Hs w Hin Hi.
  apply in_map_iff in Hin. destruct Hin as (v & <- & Hv).
  destruct (JS.eqb (History.id v) j); [discriminate|].
  apply (Hs v Hv Hi).
Qed.

(** [toggleWorkout] on any list, the workouts without an [expanded] flag
    included, which count as collapsed: one toggle negates the truth value
    of the flag, and two give the list back when the flag was set. *)
Lemma toggleWorkout_spec (i : JS.jsstring) (s : History.State) :
  Forall2 (toggle_of i) (History.workouts s)
          (History.workouts (History.toggleWorkout i s))
  /\ History.loading (History.toggleWorkout i s) = History.loading s
  /\ (expanded_set i (History.workouts s) ->
      History.toggleWorkout i (History.toggleWorkout i s) = s).
Proof.
  split; [|split; [reflexivity|]].
  - cbn [History.toggleWorkout History.setWorkouts History.workouts].
    induction (History.workouts s) as [|w ws IH]; constructor; [|exact IH].
    unfold toggle_of. destruct (JS.eqb (History.id w) i); [|reflexivity].
    repeat split. cbn [History.toggled History.expanded JS.truthy].
    destruct (JS.truthy (History.expanded w)); reflexivity.
  - intros H. destruct s as [ws l].
    unfold History.toggleWorkout, History.setWorkouts.
    cbn [History.workouts History.loading] in *.
    rewrite (toggle_map_twice i ws H). reflexivity.
Qed.

Lemma toggleWorkout_spec_witness :
  History.toggleWorkout (JS.lit "a")
    (History.toggleWorkout (JS.lit "a")
       (History.mkState [collapsed "a"; collapsed "b"] false))
  = History.mkState [collapsed "a"; collapsed "b"] false.
Proof.
  apply (proj2 (proj2 (toggleWorkout_spec (JS.lit "a")
                         (History.mkState [collapsed "a"; collapsed "b"] false)))).
  repeat constructor; discriminate.
Defined.

(** On a list that the page never holds: a workout without [expanded] comes
    back from two toggles with [expanded: false]. *)
Lemma toggleWorkout_twice_not_identity :
  ~ (forall i s, History.toggleWorkout i (History.toggleWorkout i s) = s).
Proof.
  intro H.
  specialize (H (JS.lit "a")
                (History.mkState
                   [History.mkWorkout (JS.lit "a") (JS.lit "Treino")
                      (JS.lit "2025-01-30") None None None] false)).
  vm_compute in H. discriminate H.
Qed.

(* ================================================================= *)
(** ** Properties of the record store *)

Lemma eqb_eq (a b : JS.jsstring) : JS.eqb a b = true <-> a = b.
Proof.
  revert b. induction a as [|x a IH]; intros [|y b]; cbn [JS.eqb];
    try (split; [discriminate | discriminate]); [tauto|].
  rewrite Bool.andb_true_iff, N.eqb_eq, IH.
  split; [intros [-> ->]; reflexivity | intros H; injection H; auto].
Qed.

Lemma eqb_refl (a : JS.jsstring) : JS.eqb a a = true.
Proof. apply eqb_eq. reflexivity. Qed.

Lemma insert_workout_inv env u n nt db r db' :
  Store.insert_workout env u n nt db = (r, db') ->
  match r with
  | Store.Ok row =>
      db' = Store.mkDB (Store.workouts db ++ [row]) (Store.exercises db)
      /\ row = Store.mkWorkoutRow (Store.gen_random_uuid env 0%nat) u n
                 (Store.current_date env) (Some nt) (Store.now env) (Store.now env)
      /\ Store.is_caller env u = true
  | Store.Err _ => db' = db
  end.
Proof.
  unfold Store.insert_workout.
  destruct (negb (Store.is_text n && Store.is_text nt));
    [intros H; injection H as <- <-; reflexivity|].
  destruct (Store.is_caller env u); cbn [negb].
  - destruct (Store.has_workout_id _ db); intros H; injection H as <- <-; auto.
  - intros H; injection H as <- <-; auto.
Qed.

Lemma check_exercise_inv env db added k x row :
  Store.check_exercise env db added k x = Store.Ok row ->
  stored_as x row /\ Store.has_workout_id (Store.e_workout_id row) db = true.
Proof.
  unfold Store.check_exercise.
  do 4 (destruct (negb _); [discriminate|]).
  destruct (Store.has_exercise_id _ _); [discriminate|].
  destruct (Store.has_workout_id (Store.n_workout_id x) db) eqn:Hfk;
    cbn [negb]; [|discriminate].
  intros H; injection H as <-. split; [repeat split | exact Hfk].
Qed.

Lemma check_exercises_inv env db xs : forall added k rows,
  Store.check_exercises env db added k xs = Store.Ok rows ->
  exists news,
    rows = added ++ news
    /\ Forall2 stored_as xs news
    /\ Forall (fun r => Store.has_workout_id (Store.e_workout_id r) db = true) news.
Proof.
  induction xs as [|x xs IH]; intros added k rows; cbn [Store.check_exercises].
  - intros H; injection H as <-. exists []. rewrite app_nil_r. auto.
  - destruct (Store.check_exercise env db added k x) as [row|e] eqn:Hrow;
      [|discriminate].
    intros H. apply IH in H. destruct H as (news & -> & Hst & Hfk).
    apply check_exercise_inv in Hrow. destruct Hrow as [Hs Hw].
    exists (row :: news). rewrite <- app_assoc. auto.
Qed.

Lemma insert_exercises_inv env xs db r db' :
  Store.insert_exercises env xs db = (r, db') ->
  match r with
  | Store.Ok _ =>
      exists rows,
        db' = Store.mkDB (Store.workouts db) (Store.exercises db ++ rows)
        /\ Forall2 stored_as xs rows
        /\ Forall (fun r => Store.has_workout_id (Store.e_workout_id r) db = true) rows
  | Store.Err _ => db' = db
  end.
Proof.
  unfold Store.insert_exercises.
  destruct (Store.check_exercises env db [] 0 xs) as [rows|e] eqn:Hc;
    intros H; injection H as <- <-; [|reflexivity].
  apply check_exercises_inv in Hc. destruct Hc as (news & -> & H1 & H2).
  exists news. auto.
Qed.

Lemma update_workout_inv env i set db r db' :
  Store.update_workout env i set db = (r, db') ->
  match r with
  | Store.Ok _ =>
      Store.workouts db'
      = map (fun w => if Store.deleted env i w
                      then Store.update_updated_at_column env (set w) else w)
            (Store.workouts db)
      /\ Store.exercises db' = Store.exercises db
      /\ referential_integrity db'
  | Store.Err _ => db' = db
  end.
Proof.
  unfold Store.update_workout.
  do 2 (destruct (negb (forallb _ (Store.workouts db)));
        [intros H; injection H as <- <-; reflexivity|]).
  destruct (negb (Store.distinct_ids _));
    [intros H; injection H as <- <-; reflexivity|].
  match goal with |- context [forallb ?p ?l] => destruct (forallb p l) eqn:Hfk end;
    cbn [negb]; intros H; injection H as <- <-; [|reflexivity].
  repeat split. unfold referential_integrity. cbn [Store.exercises].
  apply Forall_forall. rewrite forallb_forall in Hfk. exact Hfk.
Qed.

Lemma update_exercise_inv env i set db r db' :
  Store.update_exercise env i set db = (r, db') ->
  Store.workouts db' = Store.workouts db
  /\ (referential_integrity db -> referential_integrity db').
Proof.
  unfold Store.update_exercise.
  repeat match goal with
         | |- context [if negb ?c then _ else _] =>
             destruct c eqn:?; cbn [negb];
             [|intros H; injection H as <- <-; split; [reflexivity | auto]]
         end.
  intros H; injection H as <- <-. split; [reflexivity|]. intros _.
  unfold referential_integrity. cbn [Store.exercises].
  apply Forall_forall.
  match goal with
  | Hfk : forallb (fun e => Store.has_workout_id _ _) _ = true |- _ =>
      rewrite forallb_forall in Hfk; exact Hfk
  end.
Qed.

Lemma has_workout_id_In (i : Store.uuid) (db : Store.DB) :
  Store.has_workout_id i db = true <->
  exists w, In w (Store.workouts db) /\ Store.w_id w = i.
Proof.
  unfold Store.has_workout_id. rewrite existsb_exists.
  split; intros (w & Hin & H); exists w; split; auto; apply eqb_eq; exact H.
Qed.

Lemma is_caller_same_session (env env' : Store.Env) (u : Store.uuid) :
  Store.auth_uid env' = Store.auth_uid env ->
  Store.is_caller env' u = Store.is_caller env u.
Proof. unfold Store.is_caller. intros ->. reflexivity. Qed.

Lemma delete_workout_integrity env i db :
  referential_integrity db -> referential_integrity (Store.delete_workout env i db).
Proof.
  unfold referential_integrity. rewrite !Forall_forall. intros Hdb e He.
  cbn [Store.delete_workout Store.exercises] in He.
  apply filter_In in He. destruct He as [He Hkeep].
  apply Bool.negb_true_iff in Hkeep.
  apply Hdb in He. apply has_workout_id_In in He. destruct He as (w & Hw & Hid).
  apply has_workout_id_In. exists w. split; [|exact Hid].
  cbn [Store.delete_workout Store.workouts]. apply filter_In. split; [exact Hw|].
  destruct (Store.deleted env i w) eqn:Hdel; [|reflexivity].
  exfalso. rewrite <- Bool.not_true_iff_false in Hkeep. apply Hkeep.
  apply existsb_exists. exists w. split.
  - apply filter_In. auto.
  - apply eqb_eq. exact Hid.
Qed.

Lemma has_workout_id_grows i row ws es :
  Store.has_workout_id i (Store.mkDB ws es) = true ->
  Store.has_workout_id i (Store.mkDB (ws ++ [row]) (es)) = true.
Proof.
  unfold Store.has_workout_id. cbn [Store.workouts].
  rewrite existsb_app. intros ->. reflexivity.
Qed.

Lemma run_integrity env st db :
  referential_integrity db -> referential_integrity (run env st db).
Proof.
  intros Hdb. destruct st as [u n nt|xs|i|i set|i|i set]; cbn [run].
  - destruct (Store.insert_workout env u n nt db) as [r db'] eqn:H.
    apply insert_workout_inv in H. destruct r as [row|e]; cbn [snd].
    + destruct H as (-> & _ & _). unfold referential_integrity in *.
      cbn [Store.exercises]. eapply Forall_impl; [|exact Hdb].
      intros e He. destruct db as [ws es]. apply has_workout_id_grows. exact He.
    + subst. exact Hdb.
  - destruct (Store.insert_exercises env xs db) as [r db'] eqn:H.
    apply insert_exercises_inv in H. destruct r as [[]|e]; cbn [snd].
    + destruct H as (rows & -> & _ & Hfk). unfold referential_integrity in *.
      cbn [Store.exercises]. apply Forall_app. split.
      * exact Hdb.
      * exact Hfk.
    + subst. exact Hdb.
  - apply delete_workout_integrity. exact Hdb.
  - destruct (Store.update_workout env i set db) as [r db'] eqn:H.
    apply update_workout_inv in H. destruct r as [[]|e]; cbn [snd].
    + apply H.
    + subst. exact Hdb.
  - unfold referential_integrity in *.
    cbn [Store.delete_exercise Store.exercises].
    rewrite Forall_forall in *. intros e He. apply filter_In in He.
    apply (Hdb e (proj1 He)).
  - destruct (Store.update_exercise env i set db) as [r db'] eqn:H.
    apply update_exercise_inv in H. cbn [snd]. apply H. exact Hdb.
Qed.

Lemma reachable_integrity db : reachable db -> referential_integrity db.
Proof.
  induction 1 as [|env st db _ IH]; [constructor|].
  apply run_integrity. exact IH.
Qed.

Lemma delete_workout_cascade env i db w :
  In w (Store.workouts db) -> Store.w_id w = i ->
  Store.is_caller env (Store.w_user_id w) = true ->
  ~ In w (Store.workouts (Store.delete_workout env i db))
  /\ forall e, In e (Store.exercises (Store.delete_workout env i db)) ->
               Store.e_workout_id e <> i.
Proof.
  intros Hw Hid Hown.
  assert (Hdel : Store.deleted env i w = true).
  { unfold Store.deleted. rewrite Hown, Hid, eqb_refl. reflexivity. }
  split.
  - cbn [Store.delete_workout Store.workouts]. rewrite filter_In.
    rewrite Hdel. intros [_ H]. discriminate H.
  - intros e He Hei. cbn [Store.delete_workout Store.exercises] in He.
    apply filter_In in He. destruct He as [_ Hkeep].
    apply Bool.negb_true_iff in Hkeep.
    rewrite <- Bool.not_true_iff_false in Hkeep. apply Hkeep.
    apply existsb_exists. exists w. split.
    + apply filter_In. auto.
    + apply eqb_eq. congruence.
Qed.

Lemma select_after_delete env env' i db :
  Store.auth_uid env' = Store.auth_uid env ->
  Store.select_exercises env' i (Store.delete_workout env i db) = [].
Proof.
  intros Hsession. unfold Store.select_exercises.
  set (db' := Store.delete_workout env i db).
  assert (Hnone : forall e, In e (Store.exercises db') ->
            JS.eqb (Store.e_workout_id e) i
            && Store.owns_workout env' (Store.e_workout_id e) db' = false).
  { intros e _. apply Bool.not_true_iff_false. intros H.
    apply Bool.andb_true_iff in H. destruct H as [Hei Hown].
    apply eqb_eq in Hei. unfold Store.owns_workout in Hown.
    apply existsb_exists in Hown. destruct Hown as (w & Hw & Hwe).
    apply Bool.andb_true_iff in Hwe. destruct Hwe as [Hid Hcaller].
    apply eqb_eq in Hid.
    rewrite (is_caller_same_session env env' _ Hsession) in Hcaller.
    unfold db' in Hw. cbn [Store.delete_workout Store.workouts] in Hw.
    apply filter_In in Hw. destruct Hw as [_ Hkept].
    unfold Store.deleted in Hkept.
    rewrite Hcaller, Hid, Hei, eqb_refl in Hkept. discriminate Hkept. }
  induction (Store.exercises db') as [|e es IH]; [reflexivity|].
  cbn [filter]. rewrite (Hnone e (or_introl eq_refl)).
  apply IH. intros e' He'. apply Hnone. right. exact He'.
Qed.

(** C5: after [DELETE FROM workouts WHERE id = i] the caller's request for
    the exercises of [i] returns no row; when the caller owns a workout with
    that id, the workout is gone from the store and so is every exercise that
    references it; and in every state that the statements of the store can
    reach from the empty one, each exercise references a workout that
    exists. *)
Theorem delete_cascades :
  (forall env env' i db,
      Store.auth_uid env' = Store.auth_uid env ->
      Store.select_exercises env' i (Store.delete_workout env i db) = [])
  /\ (forall env i db w,
         In w (Store.workouts db) -> Store.w_id w = i ->
         Store.is_caller env (Store.w_user_id w) = true ->
         ~ In w (Store.workouts (Store.delete_workout env i db))
         /\ forall e, In e (Store.exercises (Store.delete_workout env i db)) ->
                      Store.e_workout_id e <> i)
  /\ (forall db, reachable db -> referential_integrity db).
Proof.
  split; [|split].
  - apply select_after_delete.
  - apply delete_workout_cascade.
  - apply reachable_integrity.
Qed.

(* ================================================================= *)
(** ** Properties of saving a workout *)

Lemma saveWorkout_blank user x1 x2 s db :
  JS.trim (workoutName s) = [] ->
  saveWorkout user x1 x2 s db
  = mkOutcome s [validation_toast UI.NomeDoTreinoObrigatorio] db.
Proof. unfold saveWorkout. intros ->. reflexivity. Qed.

Lemma saveWorkout_no_exercise user x1 x2 s db :
  JS.trim (workoutName s) <> [] -> exercises s = [] ->
  saveWorkout user x1 x2 s db
  = mkOutcome s [validation_toast UI.AdicionePeloMenosUmExercicio] db.
Proof.
  unfold saveWorkout. intros Hn ->.
  destruct (JS.trim (workoutName s)); [contradiction|reflexivity].
Qed.

(** Past the two checks, [saveWorkout] is its [try] block. *)
Lemma saveWorkout_submits uid x1 x2 s db :
  JS.trim (workoutName s) <> [] -> exercises s <> [] ->
  saveWorkout (Some uid) x1 x2 s db
  = match insert_workout_request uid x1 s db with
    | (Store.Err e1, db1) => failed (UI.message_of e1) (setSaving true s) db1
    | (Store.Ok workout, db1) =>
        match insert_exercises_request workout x2 s db1 with
        | (Store.Err e2, db2) => failed (UI.message_of e2) (setSaving true s) db2
        | (Store.Ok _, db2) =>
            mkOutcome (setSaving false (setSaving true s)) success_events db2
        end
    end.
Proof.
  unfold saveWorkout. intros Hn He.
  destruct (JS.trim (workoutName s)); [contradiction|].
  destruct (exercises s) eqn:Hex; [contradiction|].
  cbn [JS.truthy_string negb length Nat.eqb].
  unfold insert_workout_request, insert_exercises_request.
  cbn [setSaving workoutName workoutNotes exercises].
  rewrite Hex. reflexivity.
Qed.

Lemma request_inv {A} (x : exchange)
    (f : Store.Env -> Store.DB -> Store.result A * Store.DB) db r db' :
  request x f db = (r, db') ->
  (exists e, fault x = Some e /\ r = Store.Err e /\ db' = db)
  \/ (fault x = None /\ f (env x) db = (r, db')).
Proof.
  unfold request. destruct (fault x) as [e|].
  - intros H; injection H as <- <-. left. eauto.
  - intros H. right. auto.
Qed.

Lemma insert_workout_request_inv uid x1 s db r db1 :
  insert_workout_request uid x1 s db = (r, db1) ->
  match r with
  | Store.Ok workout =>
      db1 = Store.mkDB (Store.workouts db ++ [workout]) (Store.exercises db)
      /\ Store.w_user_id workout = uid
      /\ Store.w_name workout = workoutName s
  | Store.Err _ => db1 = db
  end.
Proof.
  intros H. apply request_inv in H.
  destruct H as [(e & _ & -> & ->) | [_ H]]; [reflexivity|].
  apply insert_workout_inv in H. destruct r as [row|e]; [|exact H].
  destruct H as (-> & -> & _). auto.
Qed.

Lemma exercisesData_stored workout exs rows :
  Forall2 stored_as (exercisesData workout exs) rows ->
  Forall2 (fun ex r =>
             Store.e_workout_id r = Store.w_id workout
             /\ Store.e_name r = name ex
             /\ Store.e_sets r = sets ex
             /\ Store.e_reps r = reps ex
             /\ Store.e_weight r = Store.round_hundredths (weight ex)) exs rows.
Proof.
  unfold exercisesData. revert rows.
  induction exs as [|ex exs IH]; intros rows H; cbn [map] in H;
    inversion H as [|x r xs rs Hs Hrest]; subst; constructor.
  - destruct Hs as (H1 & H2 & H3 & H4 & H5 & _).
    cbn in H1, H2, H3, H4, H5. auto.
  - apply IH. exact Hrest.
Qed.

Lemma insert_exercises_request_inv workout x2 s db1 r db2 :
  insert_exercises_request workout x2 s db1 = (r, db2) ->
  match r with
  | Store.Ok _ =>
      exists rows,
        db2 = Store.mkDB (Store.workouts db1) (Store.exercises db1 ++ rows)
        /\ Forall2 (fun ex r =>
                      Store.e_workout_id r = Store.w_id workout
                      /\ Store.e_name r = name ex
                      /\ Store.e_sets r = sets ex
                      /\ Store.e_reps r = reps ex
                      /\ Store.e_weight r = Store.round_hundredths (weight ex))
                   (exercises s) rows
  | Store.Err _ => db2 = db1
  end.
Proof.
  intros H. apply request_inv in H.
  destruct H as [(e & _ & -> & ->) | [_ H]]; [reflexivity|].
  apply insert_exercises_inv in H. destruct r as [u|e]; [|exact H].
  destruct H as (rows & -> & Hst & _). exists rows. split; [reflexivity|].
  apply exercisesData_stored. exact Hst.
Qed.

(** C6: [saveWorkout] with an empty workout name, and more generally with a
    name that is blank once trimmed, shows the validation toast 'Nome do
    treino obrigatorio' and stops there: no request is sent, the store and the
    page state are as before, whoever the user is. *)
Theorem saveWorkout_empty_name :
  (forall user x1 x2 notes exs saving db,
      saveWorkout user x1 x2 (mkState [] notes exs saving) db
      = mkOutcome (mkState [] notes exs saving)
                  [validation_toast UI.NomeDoTreinoObrigatorio] db)
  /\ (forall user x1 x2 s db,
         JS.trim (workoutName s) = [] ->
         saveWorkout user x1 x2 s db
         = mkOutcome s [validation_toast UI.NomeDoTreinoObrigatorio] db).
Proof.
  split.
  - intros. apply saveWorkout_blank. reflexivity.
  - intros. apply saveWorkout_blank. assumption.
Qed.


(** C3 (as amended): [saveWorkout] fails validation, sending nothing to the
    store, when the workout name is blank or the batch is empty.  It does not
    look at the fields of the exercises: a batch with a workout name and at
    least one exercise is submitted as entered, and when the store accepts the
    two inserts every exercise of the batch is created, with its name, sets
    and reps as entered and its weight rounded to two decimals. *)
Theorem saveWorkout_validation :
  (forall user x1 x2 s db,
      JS.trim (workoutName s) = [] \/ exercises s = [] ->
      exists t, saveWorkout user x1 x2 s db = mkOutcome s [validation_toast t] db)
  /\ (forall uid x1 x2 s db workout db1 u db2,
         JS.trim (workoutName s) <> [] -> exercises s <> [] ->
         insert_workout_request uid x1 s db = (Store.Ok workout, db1) ->
         insert_exercises_request workout x2 s db1 = (Store.Ok u, db2) ->
         saveWorkout (Some uid) x1 x2 s db
         = mkOutcome (setSaving false (setSaving true s)) success_events db2
         /\ exists rows,
             Store.exercises db2 = Store.exercises db ++ rows
             /\ Forall2 (fun ex r =>
                           Store.e_workout_id r = Store.w_id workout
                           /\ Store.e_name r = name ex
                           /\ Store.e_sets r = sets ex
                           /\ Store.e_reps r = reps ex
                           /\ Store.e_weight r = Store.round_hundredths (weight ex))
                        (exercises s) rows).
Proof.
  split.
  - intros user x1 x2 s db H.
    destruct (JS.trim (workoutName s)) as [|c cs] eqn:Hn.
    + eexists. apply saveWorkout_blank. exact Hn.
    + destruct H as [H|H]; [discriminate|].
      eexists. apply saveWorkout_no_exercise; [rewrite Hn; discriminate | exact H].
  - intros uid x1 x2 s db workout db1 u db2 Hn He H1 H2.
    rewrite (saveWorkout_submits uid x1 x2 s db Hn He), H1, H2.
    split; [reflexivity|].
    apply insert_workout_request_inv in H1. destruct H1 as (-> & _ & _).
    apply insert_exercises_request_inv in H2. destruct H2 as (rows & -> & Hrows).
    exists rows. split; [reflexivity | exact Hrows].
Qed.

Example one_workout_rows :
  one_workout
  = Store.mkDB [legs]
      [Store.mkExerciseRow (JS.lit "e0") (JS.lit "w0") (JS.lit "Agachamento")
                           3 10 6250 (Some []) 2000].
Proof. vm_compute. reflexivity. Qed.

Example negative_numbers_are_stored :
  Store.exercises
    (store (saveWorkout (Some alice) (reaches 1000 "w") (reaches 2000 "e")
              (form [mkExercise (JS.lit "c2") (JS.lit "Supino") (-3) (-10) (-5 # 2) []])
              Store.empty))
  = [Store.mkExerciseRow (JS.lit "e0") (JS.lit "w0") (JS.lit "Supino")
                         (-3) (-10) (-250) (Some []) 2000].
Proof. vm_compute. reflexivity. Qed.

Lemma saveWorkout_validation_witness :
  saveWorkout (Some alice) (reaches 1000 "w") (reaches 2000 "e")
              (form [unfilled]) Store.empty
  = mkOutcome (form [unfilled]) success_events
      (Store.mkDB [legs]
         [Store.mkExerciseRow (JS.lit "e0") (JS.lit "w0") [] 0 0 0 (Some []) 2000]).
Proof.
  refine (proj1 (proj2 saveWorkout_validation alice (reaches 1000 "w")
                   (reaches 2000 "e") (form [unfilled]) Store.empty legs
                   (Store.mkDB [legs] []) tt _ _ _ _ _)).
  - vm_compute. discriminate.
  - vm_compute. discriminate.
  - vm_compute. reflexivity.
  - vm_compute. reflexivity.
Defined.

(** C3 (as stated) fails: the batch made of the exercise that [addExercise]
    creates, whose name is empty, is saved. *)
Lemma saveWorkout_accepts_empty_exercise_name :
  ~ (forall user x1 x2 s db,
        existsb invalid (exercises s) = true ->
        exists t, saveWorkout user x1 x2 s db = mkOutcome s [validation_toast t] db).
Proof.
  intro H.
  destruct (H (Some alice) (reaches 1000 "w") (reaches 2000 "e")
              (form [unfilled]) Store.empty eq_refl) as [t Ht].
  vm_compute in Ht. discriminate Ht.
Qed.

Lemma delete_cascades_witness :
  referential_integrity one_workout
  /\ ~ In legs (Store.workouts
                  (Store.delete_workout (session 3000 "d") (JS.lit "w0") one_workout))
  /\ Store.select_exercises (session 4000 "s") (JS.lit "w0")
       (Store.delete_workout (session 3000 "d") (JS.lit "w0") one_workout) = [].
Proof.
  split; [|split].
  - apply (proj2 (proj2 delete_cascades)).
    change one_workout with
      (run (session 2000 "e")
         (InsertExercises (exercisesData legs [squat 3]))
         (run (session 1000 "w")
            (InsertWorkout alice (JS.lit "Treino de Pernas") []) Store.empty)).
    repeat constructor.
  - apply (proj1 (proj2 delete_cascades) (session 3000 "d") (JS.lit "w0")
             one_workout legs).
    + rewrite one_workout_rows. left. reflexivity.
    + reflexivity.
    + reflexivity.
  - apply (proj1 delete_cascades). reflexivity.
Defined.

Lemma saveWorkout_empty_name_witness :
  saveWorkout (Some alice) (reaches 1000 "w") (reaches 2000 "e")
              (mkState (JS.lit "   ") [] [squat 3] false) Store.empty
  = mkOutcome (mkState (JS.lit "   ") [] [squat 3] false)
              [validation_toast UI.NomeDoTreinoObrigatorio] Store.empty.
Proof.
  apply (proj2 saveWorkout_empty_name). vm_compute. reflexivity.
Defined.

(* ================================================================= *)
(** ** Timestamps *)

Lemma insert_exercises_workouts env xs db :
  Store.workouts (snd (Store.insert_exercises env xs db)) = Store.workouts db.
Proof.
  destruct (Store.insert_exercises env xs db) as [r db'] eqn:H.
  apply insert_exercises_inv in H. destruct r as [u|e]; cbn [snd].
  - destruct H as (rows & -> & _). reflexivity.
  - subst. reflexivity.
Qed.

(** Where a row of the store comes from, after one statement. *)
Lemma run_rows env st db w' :
  In w' (Store.workouts (run env st db)) ->
  In w' (Store.workouts db)
  \/ (exists u n nt, st = InsertWorkout u n nt
                     /\ Store.w_created_at w' = Store.now env
                     /\ Store.w_updated_at w' = Store.now env)
  \/ (exists i set w, st = UpdateWorkout i set
                      /\ In w (Store.workouts db)
                      /\ w' = Store.update_updated_at_column env (set w)).
Proof.
  destruct st as [u n nt|xs|i|i set|i|i set]; cbn [run].
  6: { destruct (Store.update_exercise env i set db) as [r db'] eqn:H.
       apply update_exercise_inv in H. cbn [snd]. destruct H as [-> _]. auto. }
  5: { cbn [Store.delete_exercise Store.workouts]. auto. }
  - destruct (Store.insert_workout env u n nt db) as [r db'] eqn:H.
    apply insert_workout_inv in H. destruct r as [row|e]; cbn [snd].
    + destruct H as (-> & Hrow & _). cbn [Store.workouts].
      rewrite in_app_iff. intros [Hin|[<-|[]]]; [left; exact Hin|].
      right. left. exists u, n, nt. rewrite Hrow. auto.
    + subst. auto.
  - rewrite insert_exercises_workouts. auto.
  - cbn [Store.delete_workout Store.workouts]. rewrite filter_In. intros [H _]. auto.
  - destruct (Store.update_workout env i set db) as [r db'] eqn:H.
    apply update_workout_inv in H. destruct r as [u|e]; cbn [snd].
    + destruct H as (-> & _ & _). rewrite in_map_iff. intros (w & Hw' & Hw).
      destruct (Store.deleted env i w); [|left; subst; exact Hw].
      right. right. exists i, set, w. auto.
    + subst. auto.
Qed.

(** C4 (as amended): inserting a workout sets its [created_at] and its
    [updated_at] to the time of the insert and leaves the other workouts as
    they are; inserting exercises leaves every workout as it is, [updated_at]
    included, no trigger being defined on the exercises; a workout that a
    delete leaves in the store is unchanged; the trigger sets the
    [updated_at] of each updated workout to the time of the update.  So along
    statements whose clock does not run behind the timestamps already stored,
    each workout after a statement is either unchanged or carries the time of
    that statement as [updated_at], and none carries a later time. *)
Theorem timestamps :
  (forall env u n nt db row db',
      Store.insert_workout env u n nt db = (Store.Ok row, db') ->
      Store.w_created_at row = Store.now env
      /\ Store.w_updated_at row = Store.now env
      /\ Store.workouts db' = Store.workouts db ++ [row])
  /\ (forall env xs db,
         Store.workouts (snd (Store.insert_exercises env xs db)) = Store.workouts db)
  /\ (forall env i db w,
         In w (Store.workouts (Store.delete_workout env i db)) ->
         In w (Store.workouts db))
  /\ (forall env i set db u db',
         Store.update_workout env i set db = (Store.Ok u, db') ->
         Forall2 (fun w w' =>
                    if Store.deleted env i w
                    then Store.w_updated_at w' = Store.now env
                         /\ Store.w_created_at w' = Store.w_created_at (set w)
                    else w' = w)
                 (Store.workouts db) (Store.workouts db'))
  /\ (forall env st db,
         (forall w, In w (Store.workouts db) -> Store.w_updated_at w <= Store.now env) ->
         forall w', In w' (Store.workouts (run env st db)) ->
                    Store.w_updated_at w' <= Store.now env
                    /\ (In w' (Store.workouts db)
                        \/ Store.w_updated_at w' = Store.now env)).
Proof.
  split; [|split; [|split; [|split]]].
  - intros env u n nt db row db' H. apply insert_workout_inv in H.
    destruct H as (-> & -> & _). auto.
  - apply insert_exercises_workouts.
  - intros env i db w. cbn [Store.delete_workout Store.workouts].
    rewrite filter_In. tauto.
  - intros env i set db u db' H. apply update_workout_inv in H.
    destruct H as (-> & _ & _).
    induction (Store.workouts db) as [|w ws IH]; cbn [map]; constructor; [|exact IH].
    destruct (Store.deleted env i w); auto.
  - intros env st db Hclock w' Hw'.
    destruct (run_rows env st db w' Hw')
      as [Hold | [(u & n & nt & _ & _ & Hup) | (i & set & w & _ & _ & ->)]].
    + split; [apply Hclock; exact Hold | left; exact Hold].
    + rewrite Hup. split; [lia | right; reflexivity].
    + cbn [Store.update_updated_at_column Store.w_updated_at].
      split; [lia | right; reflexivity].
Qed.

Lemma timestamps_witness :
  Store.w_updated_at legs <= 2000
  /\ (In legs [legs] \/ Store.w_updated_at legs = 2000).
Proof.
  apply (proj2 (proj2 (proj2 (proj2 timestamps))) (session 2000 "e")
           (InsertExercises (exercisesData legs [squat 3])) (Store.mkDB [legs] [])).
  - intros w [<-|[]]. vm_compute. discriminate.
  - vm_compute. left. reflexivity.
Defined.

(** C4 (as stated) fails: exercises inserted at time 2000 into a workout
    created at time 1000 leave its [updated_at] at 1000. *)
Lemma insert_exercises_does_not_refresh :
  ~ (forall env xs db u db' w,
        Store.insert_exercises env xs db = (Store.Ok u, db') ->
        In w (Store.workouts db') ->
        existsb (fun x => JS.eqb (Store.n_workout_id x) (Store.w_id w)) xs = true ->
        Store.w_updated_at w = Store.now env).
Proof.
  intro H.
  specialize (H (session 2000 "e") (exercisesData legs [squat 3])
                (Store.mkDB [legs] []) tt one_workout legs).
  rewrite one_workout_rows in H.
  assert (Hfalse : Store.w_updated_at legs = Store.now (session 2000 "e")).
  { apply H.
    - vm_compute. reflexivity.
    - left. reflexivity.
    - vm_compute. reflexivity. }
  vm_compute in Hfalse. discriminate Hfalse.
Qed.

(* ================================================================= *)
(** ** Further properties of the record store *)

Lemma filter_all {A} (p : A -> bool) (l : list A) :
  (forall a, In a l -> p a = true) -> filter p l = l.
Proof.
  induction l as [|a l IH]; intros H; [reflexivity|].
  cbn [filter]. rewrite (H a (or_introl eq_refl)).
  f_equal. apply IH. intros b Hb. apply H. right. exact Hb.
Qed.

Lemma filter_none {A} (p : A -> bool) (l : list A) :
  (forall a, In a l -> p a = false) -> filter p l = [].
Proof.
  induction l as [|a l IH]; intros H; [reflexivity|].
  cbn [filter]. rewrite (H a (or_introl eq_refl)).
  apply IH. intros b Hb. apply H. right. exact Hb.
Qed.

Lemma owns_workout_In env i db :
  Store.owns_workout env i db = true <->
  exists w, In w (Store.workouts db) /\ Store.w_id w = i
            /\ Store.is_caller env (Store.w_user_id w) = true.
Proof.
  unfold Store.owns_workout. rewrite existsb_exists.
  split; intros (w & Hin & H); exists w.
  - apply Bool.andb_true_iff in H. rewrite eqb_eq in H. tauto.
  - destruct H as [<- ->]. rewrite eqb_refl. auto.
Qed.

Lemma deleted_owns env i db w :
  In w (Store.workouts db) -> Store.deleted env i w = true ->
  Store.owns_workout env i db = true.
Proof.
  unfold Store.deleted. intros Hin H. apply Bool.andb_true_iff in H.
  apply owns_workout_In. exists w. rewrite <- eqb_eq. tauto.
Qed.

(** X1: a [DELETE] on a workout id that the caller does not own, be it the
    id of another user's workout, of none, or the caller without identity,
    leaves the store as it is: no workout and no exercise is removed. *)
Theorem delete_workout_not_owned env i db :
  Store.owns_workout env i db = false -> Store.delete_workout env i db = db.
Proof.
  intros Hnot.
  assert (Hkeep : forall w, In w (Store.workouts db) -> Store.deleted env i w = false).
  { intros w Hw. destruct (Store.deleted env i w) eqn:Hd; [|reflexivity].
    rewrite (deleted_owns env i db w Hw Hd) in Hnot. discriminate Hnot. }
  unfold Store.delete_workout.
  rewrite (filter_none (Store.deleted env i) (Store.workouts db) Hkeep).
  rewrite !filter_all.
  - destruct db. reflexivity.
  - reflexivity.
  - intros w Hw. rewrite (Hkeep w Hw). reflexivity.
Qed.

Lemma delete_workout_not_owned_witness :
  Store.delete_workout (session 3000 "d") (JS.lit "w1") two_users = two_users.
Proof.
  apply (delete_workout_not_owned (session 3000 "d") (JS.lit "w1") two_users).
  vm_compute. reflexivity.
Defined.

(** For a workout of the caller the policy on [exercises] hides nothing. *)
Lemma select_exercises_own env i db :
  Store.owns_workout env i db = true ->
  Store.select_exercises env i db
  = filter (fun e => JS.eqb (Store.e_workout_id e) i) (Store.exercises db).
Proof.
  intros Hown. unfold Store.select_exercises.
  apply filter_ext. intros e.
  destruct (JS.eqb (Store.e_workout_id e) i) eqn:He; [|reflexivity].
  apply eqb_eq in He. rewrite He, Hown. reflexivity.
Qed.

(** X2: the request for the exercises of workout [i] returns every exercise
    of the store that references [i], in storage order, when the caller owns
    [i], and nothing when the caller does not. *)
Theorem select_exercises_owned env i db :
  Store.select_exercises env i db
  = if Store.owns_workout env i db
    then filter (fun e => JS.eqb (Store.e_workout_id e) i) (Store.exercises db)
    else [].
Proof.
  destruct (Store.owns_workout env i db) eqn:Hown.
  - apply select_exercises_own. exact Hown.
  - unfold Store.select_exercises. apply filter_none. intros e _.
    destruct (JS.eqb (Store.e_workout_id e) i) eqn:He; [|reflexivity].
    apply eqb_eq in He. rewrite He, Hown. reflexivity.
Qed.

Lemma check_exercise_refused env db added k x :
  in_range x = false \/ Store.owns_workout env (Store.n_workout_id x) db = false ->
  exists e, Store.check_exercise env db added k x = Store.Err e.
Proof.
  unfold Store.check_exercise, in_range. intros [Hr|Ho].
  - destruct (negb _); [eauto|]. rewrite Hr. cbn [negb]. eauto.
  - do 3 (destruct (negb _); [eauto|]). rewrite Ho. cbn [negb]. eauto.
Qed.

Lemma check_exercises_refused env db xs x : forall added k,
  In x xs ->
  in_range x = false \/ Store.owns_workout env (Store.n_workout_id x) db = false ->
  exists e, Store.check_exercises env db added k xs = Store.Err e.
Proof.
  induction xs as [|y xs IH]; intros added k Hin Hbad; [destruct Hin|].
  cbn [Store.check_exercises].
  destruct (Store.check_exercise env db added k y) as [row|e] eqn:Hy; [|eauto].
  destruct Hin as [->|Hin].
  - destruct (check_exercise_refused env db added k x Hbad) as [e He].
    rewrite He in Hy. discriminate Hy.
  - apply IH; assumption.
Qed.

(** X3: the insert of a batch of exercises is all or nothing.  When one
    exercise of the batch has a sets or reps value outside the 32-bit
    integers, a weight of more than eight digits before the point, or the id
    of a workout that the caller does not own, the statement fails and no
    exercise of the batch is stored, the valid ones included. *)
Theorem insert_exercises_all_or_nothing env xs db x :
  In x xs ->
  in_range x = false \/ Store.owns_workout env (Store.n_workout_id x) db = false ->
  exists e, Store.insert_exercises env xs db = (Store.Err e, db).
Proof.
  intros Hin Hbad. unfold Store.insert_exercises.
  destruct (check_exercises_refused env db xs x [] 0%nat Hin Hbad) as [e ->].
  eauto.
Qed.

Lemma insert_exercises_all_or_nothing_witness :
  exists e,
    Store.insert_exercises (session 3000 "f")
      [Store.mkNewExercise (JS.lit "w0") (JS.lit "Leg press") 3 12 100 [];
       Store.mkNewExercise (JS.lit "w1") (JS.lit "Supino") 3 12 40 []]
      two_users
    = (Store.Err e, two_users).
Proof.
  apply (insert_exercises_all_or_nothing (session 3000 "f") _ two_users
           (Store.mkNewExercise (JS.lit "w1") (JS.lit "Supino") 3 12 40 [])).
  - right. left. reflexivity.
  - right. vm_compute. reflexivity.
Defined.

Lemma is_caller_eq env u v :
  Store.is_caller env u = true -> Store.is_caller env v = true -> u = v.
Proof.
  unfold Store.is_caller. destruct (Store.auth_uid env) as [c|]; [|discriminate].
  rewrite !eqb_eq. congruence.
Qed.

(** X4: an [UPDATE] of workouts cannot change who owns a workout: after a
    successful update the owners of the workouts are, row by row, those of
    before, whatever the update sets, and every updated row was the
    caller's. *)
Theorem update_workout_keeps_owner env i set db u db' :
  Store.update_workout env i set db = (Store.Ok u, db') ->
  map Store.w_user_id (Store.workouts db') = map Store.w_user_id (Store.workouts db)
  /\ Forall2 (fun w w' => w' = w \/ Store.is_caller env (Store.w_user_id w) = true)
             (Store.workouts db) (Store.workouts db').
Proof.
  intros H. pose proof H as H'. apply update_workout_inv in H'.
  destruct H' as (Hws & _ & _). rewrite Hws. clear Hws.
  unfold Store.update_workout in H.
  match type of H with
  | (if negb (forallb ?p ?l) then _ else _) = _ =>
      destruct (forallb p l); cbn [negb] in H; [|discriminate H]
  end.
  match type of H with
  | (if negb (forallb ?p ?l) then _ else _) = _ =>
      destruct (forallb p l) eqn:Hcheck; cbn [negb] in H; [|discriminate H]
  end.
  clear H. rewrite forallb_forall in Hcheck.
  induction (Store.workouts db) as [|w ws IH]; cbn [map]; [split; constructor|].
  destruct IH as [IH1 IH2]; [intros v Hv; apply Hcheck; right; exact Hv|].
  specialize (Hcheck w (or_introl eq_refl)).
  destruct (Store.deleted env i w) eqn:Hd; cbn [negb orb] in Hcheck.
  - unfold Store.deleted in Hd. apply Bool.andb_true_iff in Hd.
    split; [|constructor; [right; tauto | exact IH2]].
    f_equal; [|exact IH1].
    apply (is_caller_eq env); tauto.
  - split; [f_equal; exact IH1 | constructor; [left; reflexivity | exact IH2]].
Qed.

Lemma update_workout_keeps_owner_witness :
  map Store.w_user_id
      (Store.workouts
         (snd (Store.update_workout (session 3000 "u") (JS.lit "w0")
                 (rename "Pernas") two_users)))
  = map Store.w_user_id (Store.workouts two_users).
Proof.
  apply (proj1 (update_workout_keeps_owner (session 3000 "u") (JS.lit "w0")
                  (rename "Pernas") two_users tt
                  (snd (Store.update_workout (session 3000 "u") (JS.lit "w0")
                          (rename "Pernas") two_users))
                  ltac:(vm_compute; reflexivity))).
Defined.

Example update_workout_cannot_give_away :
  Store.update_workout (session 3000 "u") (JS.lit "w0")
    (fun w => Store.mkWorkoutRow (Store.w_id w) bob (Store.w_name w)
                (Store.w_date w) (Store.w_notes w) (Store.w_created_at w)
                (Store.w_updated_at w))
    two_users
  = (Store.Err (Store.rls_violation Store.Workouts), two_users).
Proof. vm_compute. reflexivity. Qed.

Lemma update_exercise_rows env i set db r db' :
  Store.update_exercise env i set db = (r, db') ->
  db' = db
  \/ (Store.exercises db'
      = map (fun e => if Store.hit env i db e then set e else e) (Store.exercises db)
      /\ Store.distinct_exercise_ids (Store.exercises db') = true).
Proof.
  unfold Store.update_exercise.
  do 3 (destruct (negb (forallb _ (Store.exercises db)));
        [intros H; injection H as <- <-; left; reflexivity|]).
  destruct (Store.distinct_exercise_ids _) eqn:Hd; cbn [negb];
    [|intros H; injection H as <- <-; left; reflexivity].
  destruct (negb (forallb _ _));
    intros H; injection H as <- <-; [left; reflexivity|].
  right. cbn [Store.exercises]. split; [reflexivity | exact Hd].
Qed.

Lemma In_map_unless {A} (p : A -> bool) (f : A -> A) (a : A) (l : list A) :
  In a l -> p a = false -> In a (map (fun x => if p x then f x else x) l).
Proof.
  intros Hin Hp. apply in_map_iff. exists a. rewrite Hp. auto.
Qed.

(** X5: no statement of a caller touches what belongs to somebody else.  A
    workout that is not the caller's, and an exercise of a workout that the
    caller does not own, are in the store after the statement as they were
    before, whatever the statement: insert, update or delete, of workouts or
    of exercises. *)
Theorem run_leaves_others env st db :
  (forall w, In w (Store.workouts db) ->
             Store.is_caller env (Store.w_user_id w) = false ->
             In w (Store.workouts (run env st db)))
  /\ (forall e, In e (Store.exercises db) ->
                Store.owns_workout env (Store.e_workout_id e) db = false ->
                In e (Store.exercises (run env st db))).
Proof.
  split.
  - intros w Hw Hother. destruct st as [u n nt|xs|i|i set|i|i set]; cbn [run].
    + destruct (Store.insert_workout env u n nt db) as [r db'] eqn:H.
      apply insert_workout_inv in H. destruct r as [row|e]; cbn [snd].
      * destruct H as (-> & _). cbn [Store.workouts]. apply in_or_app. auto.
      * subst. exact Hw.
    + rewrite insert_exercises_workouts. exact Hw.
    + cbn [Store.delete_workout Store.workouts]. apply filter_In.
      split; [exact Hw|]. unfold Store.deleted. rewrite Hother.
      rewrite Bool.andb_false_r. reflexivity.
    + destruct (Store.update_workout env i set db) as [r db'] eqn:H.
      apply update_workout_inv in H. destruct r as [u|e]; cbn [snd].
      * destruct H as (-> & _). apply In_map_unless; [exact Hw|].
        unfold Store.deleted. rewrite Hother. apply Bool.andb_false_r.
      * subst. exact Hw.
    + exact Hw.
    + destruct (Store.update_exercise env i set db) as [r db'] eqn:H.
      apply update_exercise_inv in H. cbn [snd]. destruct H as [-> _]. exact Hw.
  - intros e He Hother. destruct st as [u n nt|xs|i|i set|i|i set]; cbn [run].
    + destruct (Store.insert_workout env u n nt db) as [r db'] eqn:H.
      apply insert_workout_inv in H. destruct r as [row|err]; cbn [snd].
      * destruct H as (-> & _). exact He.
      * subst. exact He.
    + destruct (Store.insert_exercises env xs db) as [r db'] eqn:H.
      apply insert_exercises_inv in H. destruct r as [u|err]; cbn [snd].
      * destruct H as (rows & -> & _). cbn [Store.exercises].
        apply in_or_app. auto.
      * subst. exact He.
    + cbn [Store.delete_workout Store.exercises]. apply filter_In.
      split; [exact He|]. apply Bool.negb_true_iff.
      apply Bool.not_true_iff_false. intros Hgone.
      apply existsb_exists in Hgone. destruct Hgone as (w & Hw & Hid).
      apply filter_In in Hw. destruct Hw as [Hw Hdel].
      apply eqb_eq in Hid. unfold Store.deleted in Hdel.
      apply Bool.andb_true_iff in Hdel.
      assert (Hown : Store.owns_workout env (Store.e_workout_id e) db = true).
      { apply owns_workout_In. exists w. tauto. }
      rewrite Hown in Hother. discriminate Hother.
    + destruct (Store.update_workout env i set db) as [r db'] eqn:H.
      apply update_workout_inv in H. destruct r as [u|err]; cbn [snd].
      * destruct H as (_ & -> & _). exact He.
      * subst. exact He.
    + cbn [Store.delete_exercise Store.exercises]. apply filter_In.
      split; [exact He|]. unfold Store.hit. rewrite Hother.
      rewrite Bool.andb_false_r. reflexivity.
    + destruct (Store.update_exercise env i set db) as [r db'] eqn:H.
      apply update_exercise_rows in H. cbn [snd].
      destruct H as [->|[-> _]]; [exact He|].
      apply In_map_unless; [exact He|].
      unfold Store.hit. rewrite Hother. apply Bool.andb_false_r.
Qed.

Lemma run_leaves_others_witness :
  In bobs (Store.workouts (run (session 3000 "d") (DeleteWorkout (JS.lit "w1")) two_users)).
Proof.
  apply (proj1 (run_leaves_others (session 3000 "d") (DeleteWorkout (JS.lit "w1"))
                  two_users) bobs).
  - right. left. reflexivity.
  - vm_compute. reflexivity.
Defined.

(* ----- primary keys ----- *)

Lemma has_workout_id_false i db :
  Store.has_workout_id i db = false -> ~ In i (map Store.w_id (Store.workouts db)).
Proof.
  intros H Hin. apply in_map_iff in Hin. destruct Hin as (w & Hid & Hw).
  assert (Ht : Store.has_workout_id i db = true)
    by (apply has_workout_id_In; eauto).
  rewrite Ht in H. discriminate H.
Qed.

Lemma has_exercise_id_false i es :
  Store.has_exercise_id i es = false -> ~ In i (map Store.e_id es).
Proof.
  unfold Store.has_exercise_id. intros H Hin.
  apply in_map_iff in Hin. destruct Hin as (e & Hid & He).
  apply Bool.not_true_iff_false in H. apply H.
  apply existsb_exists. exists e. rewrite eqb_eq. auto.
Qed.

Lemma distinct_ids_NoDup l :
  Store.distinct_ids l = true -> NoDup (map Store.w_id l).
Proof.
  induction l as [|w l IH]; cbn [Store.distinct_ids map]; [constructor|].
  intros H. apply Bool.andb_true_iff in H. destruct H as [Hw Hl].
  constructor; [|apply IH; exact Hl].
  apply Bool.negb_true_iff in Hw. intros Hin.
  apply in_map_iff in Hin. destruct Hin as (v & Hid & Hv).
  apply Bool.not_true_iff_false in Hw. apply Hw.
  apply existsb_exists. exists v. rewrite eqb_eq. auto.
Qed.

Lemma distinct_exercise_ids_NoDup l :
  Store.distinct_exercise_ids l = true -> NoDup (map Store.e_id l).
Proof.
  induction l as [|e l IH]; cbn [Store.distinct_exercise_ids map]; [constructor|].
  intros H. apply Bool.andb_true_iff in H. destruct H as [He Hl].
  constructor; [|apply IH; exact Hl].
  apply Bool.negb_true_iff in He. apply has_exercise_id_false. exact He.
Qed.

Lemma distinct_keys_filter {Row : Type} (keep : Row -> bool)
    (key : Row -> Store.uuid) (rows : list Row) :
  NoDup (map key rows) -> NoDup (map key (filter keep rows)).
Proof.
  induction rows as [|r rows IH]; cbn [map filter]; [auto|].
  intros H. inversion H as [|x xs Hnotin Hrest]; subst.
  destruct (keep r); [|apply IH; exact Hrest].
  cbn [map]. constructor; [|apply IH; exact Hrest].
  intros Hin. apply Hnotin. apply in_map_iff in Hin.
  destruct Hin as (b & Hb & Hbin). apply filter_In in Hbin.
  apply in_map_iff. exists b. tauto.
Qed.

Lemma NoDup_snoc {B} (l : list B) (b : B) :
  NoDup l -> ~ In b l -> NoDup (l ++ [b]).
Proof.
  intros Hl Hb. apply NoDup_app; [exact Hl | constructor; [auto | constructor] |].
  intros x Hx [<-|[]]. exact (Hb Hx).
Qed.

Lemma check_exercises_distinct env db xs : forall added k rows,
  Store.check_exercises env db added k xs = Store.Ok rows ->
  NoDup (map Store.e_id (Store.exercises db ++ added)) ->
  NoDup (map Store.e_id (Store.exercises db ++ rows)).
Proof.
  induction xs as [|x xs IH]; intros added k rows; cbn [Store.check_exercises].
  - intros H; injection H as <-. auto.
  - destruct (Store.check_exercise env db added k x) as [row|e] eqn:Hrow;
      [|discriminate].
    intros H Hnd. apply (IH _ _ _ H). rewrite app_assoc, map_app.
    apply NoDup_snoc; [exact Hnd|].
    unfold Store.check_exercise in Hrow.
    do 4 (destruct (negb _); [discriminate|]).
    match type of Hrow with
    | (if Store.has_exercise_id ?i ?l then _ else _) = _ =>
        destruct (Store.has_exercise_id i l) eqn:Hid; [discriminate|]
    end.
    destruct (negb _); [discriminate|]. injection Hrow as <-.
    apply has_exercise_id_false. exact Hid.
Qed.

Lemma run_keys_distinct env st db :
  keys_distinct db -> keys_distinct (run env st db).
Proof.
  unfold keys_distinct. intros [Hw He].
  destruct st as [u n nt|xs|i|i set|i|i set]; cbn [run].
  - unfold Store.insert_workout.
    destruct (negb (Store.is_text n && Store.is_text nt)); [auto|].
    destruct (negb (Store.is_caller env u)); [auto|].
    destruct (Store.has_workout_id _ db) eqn:Hid; cbn [snd]; [auto|].
    cbn [Store.workouts Store.exercises]. split; [|exact He].
    rewrite map_app. apply NoDup_snoc; [exact Hw|].
    apply has_workout_id_false. exact Hid.
  - unfold Store.insert_exercises.
    destruct (Store.check_exercises env db [] 0 xs) as [rows|e] eqn:Hc;
      cbn [snd Store.workouts Store.exercises]; [|auto].
    split; [exact Hw|]. apply (check_exercises_distinct _ _ _ _ _ _ Hc).
    rewrite app_nil_r. exact He.
  - cbn [Store.delete_workout Store.workouts Store.exercises].
    split; apply distinct_keys_filter; assumption.
  - destruct (Store.update_workout env i set db) as [r db'] eqn:H.
    pose proof H as H'. apply update_workout_inv in H'.
    destruct r as [u|e]; cbn [snd]; [|subst; auto].
    destruct H' as (_ & -> & _). split; [|exact He].
    unfold Store.update_workout in H.
    do 2 (destruct (negb (forallb _ (Store.workouts db))); [discriminate|]).
    match type of H with
    | (if negb (Store.distinct_ids ?l) then _ else _) = _ =>
        destruct (Store.distinct_ids l) eqn:Hd; cbn [negb] in H; [|discriminate]
    end.
    destruct (negb (forallb _ _)); [discriminate|].
    injection H as _ Hdb. rewrite <- Hdb. cbn [Store.workouts].
    apply distinct_ids_NoDup. exact Hd.
  - cbn [Store.delete_exercise Store.workouts Store.exercises].
    split; [exact Hw | apply distinct_keys_filter; exact He].
  - destruct (Store.update_exercise env i set db) as [r db'] eqn:H.
    pose proof H as H'. apply update_exercise_inv in H'. destruct H' as [Hws _].
    apply update_exercise_rows in H. cbn [snd]. rewrite Hws.
    destruct H as [->|[_ Hd]]; [auto|].
    split; [exact Hw | apply distinct_exercise_ids_NoDup; exact Hd].
Qed.

(** X6: the primary keys hold.  In every state that the statements of the
    store reach from the empty one, no two workouts have the same id and no
    two exercises have the same id, whatever [gen_random_uuid] draws: a draw
    that is taken already makes the insert fail. *)
Theorem reachable_keys_distinct db :
  reachable db ->
  NoDup (map Store.w_id (Store.workouts db))
  /\ NoDup (map Store.e_id (Store.exercises db)).
Proof.
  induction 1 as [|env st db _ IH].
  - split; constructor.
  - apply run_keys_distinct. exact IH.
Qed.

Lemma reachable_keys_distinct_witness :
  NoDup (map Store.w_id (Store.workouts one_workout))
  /\ NoDup (map Store.e_id (Store.exercises one_workout)).
Proof.
  apply (reachable_keys_distinct one_workout).
  change one_workout with
    (run (session 2000 "e")
       (InsertExercises (exercisesData legs [squat 3]))
       (run (session 1000 "w")
          (InsertWorkout alice (JS.lit "Treino de Pernas") []) Store.empty)).
  repeat constructor.
Defined.

(* ----- ORDER BY date DESC LIMIT n ----- *)

Lemma date_ltb_spec (a b : Store.SqlDate) :
  Store.date_ltb a b = true <->
  Store.year a < Store.year b
  \/ (Store.year a = Store.year b
      /\ (Store.month a < Store.month b
          \/ (Store.month a = Store.month b /\ Store.day a < Store.day b))).
Proof.
  unfold Store.date_ltb.
  rewrite !Bool.orb_true_iff, !Bool.andb_true_iff, !Bool.orb_true_iff,
          !Bool.andb_true_iff, !Z.ltb_lt, !Z.eqb_eq.
  tauto.
Qed.

Lemma date_ltb_asym a b : Store.date_ltb a b = true -> Store.date_ltb b a = false.
Proof.
  intros H. apply Bool.not_true_iff_false. rewrite date_ltb_spec in *. lia.
Qed.

Lemma not_older_trans w v x :
  Store.date_ltb w v = false -> Store.date_ltb v x = false ->
  Store.date_ltb w x = false.
Proof.
  rewrite <- !Bool.not_true_iff_false, !date_ltb_spec. lia.
Qed.

Lemma insert_by_date_perm w l : Permutation (Store.insert_by_date w l) (w :: l).
Proof.
  induction l as [|v l IH]; cbn [Store.insert_by_date]; [reflexivity|].
  destruct (Store.date_ltb (Store.w_date w) (Store.w_date v)); [|reflexivity].
  rewrite IH. apply perm_swap.
Qed.

Lemma order_by_date_desc_perm l : Permutation (Store.order_by_date_desc l) l.
Proof.
  induction l as [|w l IH]; cbn [Store.order_by_date_desc]; [reflexivity|].
  rewrite insert_by_date_perm. constructor. exact IH.
Qed.

Lemma insert_by_date_sorted w l :
  StronglySorted not_older l -> StronglySorted not_older (Store.insert_by_date w l).
Proof.
  induction 1 as [|v l Hl IH Hv]; cbn [Store.insert_by_date].
  - constructor; constructor.
  - destruct (Store.date_ltb (Store.w_date w) (Store.w_date v)) eqn:Hwv.
    + constructor; [exact IH|].
      rewrite Forall_forall in *. intros x Hx.
      apply (Permutation_in _ (insert_by_date_perm w l)) in Hx.
      destruct Hx as [<-|Hx]; [apply date_ltb_asym; exact Hwv | apply Hv; exact Hx].
    + constructor; [constructor; assumption|].
      constructor; [exact Hwv|].
      rewrite Forall_forall in *. intros x Hx. unfold not_older in *.
      apply (not_older_trans _ (Store.w_date v)); [exact Hwv | apply Hv; exact Hx].
Qed.

Lemma order_by_date_desc_sorted l :
  StronglySorted not_older (Store.order_by_date_desc l).
Proof.
  induction l as [|w l IH]; cbn [Store.order_by_date_desc]; [constructor|].
  apply insert_by_date_sorted. exact IH.
Qed.

Lemma StronglySorted_app_inv {A} (R : A -> A -> Prop) (l1 l2 : list A) :
  StronglySorted R (l1 ++ l2) ->
  forall v w, In v l1 -> In w l2 -> R v w.
Proof.
  induction l1 as [|a l1 IH]; intros H v w Hv Hw; [destruct Hv|].
  cbn [app] in H. inversion H as [|x xs Hs Hall]; subst.
  destruct Hv as [<-|Hv].
  - rewrite Forall_forall in Hall. apply Hall. apply in_or_app. auto.
  - apply IH; assumption.
Qed.

Lemma StronglySorted_prefix {A} (R : A -> A -> Prop) (l1 l2 : list A) :
  StronglySorted R (l1 ++ l2) -> StronglySorted R l1.
Proof.
  induction l1 as [|a l1 IH]; cbn [app]; intros H; [constructor|].
  inversion H as [|x xs Hs Hall]; subst. constructor; [apply IH; exact Hs|].
  rewrite Forall_forall in *. intros y Hy. apply Hall. apply in_or_app. auto.
Qed.

(** X7: the request for the workouts returns the caller's workouts and no
    other, each one once, newest date first.  With a limit of [n] it returns
    as many of them as there are, or [n] if that is less, newest date first,
    and the workouts of the caller that it leaves out are none of them newer
    than any that it returns.  This holds however the store orders workouts
    of the same date. *)
Theorem select_workouts_newest_first env n db :
  Permutation (Store.select_workouts env None db) (own_workouts env db)
  /\ StronglySorted not_older (Store.select_workouts env None db)
  /\ StronglySorted not_older (Store.select_workouts env (Some n) db)
  /\ length (Store.select_workouts env (Some n) db)
     = Nat.min n (length (own_workouts env db))
  /\ (exists rest,
         Permutation (Store.select_workouts env (Some n) db ++ rest)
                     (own_workouts env db)
         /\ forall v w,
             In v (Store.select_workouts env (Some n) db) -> In w rest ->
             not_older v w).
Proof.
  unfold Store.select_workouts, own_workouts.
  set (own := filter _ (Store.workouts db)).
  pose proof (order_by_date_desc_sorted own) as Hsorted.
  pose proof (order_by_date_desc_perm own) as Hperm.
  split; [exact Hperm|]. split; [exact Hsorted|].
  rewrite <- (firstn_skipn n (Store.order_by_date_desc own)) in Hsorted, Hperm.
  split; [apply (StronglySorted_prefix _ _ _ Hsorted)|]. split.
  - rewrite length_firstn, <- (Permutation_length (order_by_date_desc_perm own)).
    reflexivity.
  - exists (skipn n (Store.order_by_date_desc own)).
    split; [exact Hperm | apply StronglySorted_app_inv; exact Hsorted].
Qed.

Lemma select_workouts_newest_first_witness :
  length (Store.select_workouts (session 0 "s") (Some 2%nat)
            (Store.mkDB [on_day "a" 5; on_day "b" 31; on_day "c" 20; bobs] []))
  = 2%nat
  /\ StronglySorted not_older
       (Store.select_workouts (session 0 "s") (Some 2%nat)
          (Store.mkDB [on_day "a" 5; on_day "b" 31; on_day "c" 20; bobs] [])).
Proof.
  split.
  - apply (proj1 (proj2 (proj2 (proj2
             (select_workouts_newest_first (session 0 "s") 2
                (Store.mkDB [on_day "a" 5; on_day "b" 31; on_day "c" 20; bobs] [])))))).
  - apply (proj1 (proj2 (proj2
             (select_workouts_newest_first (session 0 "s") 2
                (Store.mkDB [on_day "a" 5; on_day "b" 31; on_day "c" 20; bobs] []))))).
Defined.

Example select_workouts_limit_keeps_newest :
  map Store.w_id
      (Store.select_workouts (session 0 "s") (Some 2%nat)
         (Store.mkDB [on_day "a" 5; on_day "b" 31; on_day "c" 20; bobs] []))
  = [JS.lit "b"; JS.lit "c"].
Proof. vm_compute. reflexivity. Qed.

Example select_workouts_ties :
  map Store.w_id
      (Store.select_workouts (session 0 "s") None
         (Store.mkDB [on_day "a" 5; on_day "b" 5; on_day "c" 20] []))
  = [JS.lit "c"; JS.lit "a"; JS.lit "b"].
Proof. vm_compute. reflexivity. Qed.

(* ================================================================= *)
(** ** Further properties of the dashboard *)

Lemma digit_digit_char z : JS.digit (Store.digit_char z) = Some (z mod 10).
Proof.
  unfold JS.digit, Store.digit_char.
  pose proof (Z.mod_pos_bound z 10 ltac:(lia)) as Hr.
  destruct (N.leb_spec 48 (Z.to_N (48 + z mod 10))); [|lia].
  destruct (N.leb_spec (Z.to_N (48 + z mod 10)) 57); [|lia].
  cbn [andb]. f_equal. lia.
Qed.

Lemma digits2_pad z :
  JS.digits2 (Store.digit_char (z / 10)) (Store.digit_char z) = Some (z mod 100).
Proof.
  unfold JS.digits2. rewrite !digit_digit_char. f_equal.
  Z.to_euclidean_division_equations. lia.
Qed.

Lemma digits4_pad z :
  0 <= z <= 9999 ->
  JS.digits4 (Store.digit_char (z / 100 / 10)) (Store.digit_char (z / 100))
             (Store.digit_char (z / 10)) (Store.digit_char z) = Some z.
Proof.
  intros Hz. unfold JS.digits4. rewrite !digits2_pad. f_equal.
  Z.to_euclidean_division_equations. lia.
Qed.

Lemma DaysInMonth_le y m : JS.DaysInMonth y m <= 31.
Proof.
  unfold JS.DaysInMonth.
  destruct (JS.InLeapYear y); destruct m as [|p|p]; try lia;
    do 4 (try (destruct p as [p|p|]; try lia)).
Qed.

(** The JSON form of a date of the store reads back as its day. *)
Lemma date_to_json_day (d : Store.SqlDate) :
  valid_date d ->
  JS.parse_day (Store.date_to_json d) = Some (day_number d).
Proof.
  intros (Hy & Hm & Hd).
  pose proof (DaysInMonth_le (Store.year d) (Store.month d)) as H31.
  cbv [JS.parse_day Store.date_to_json Store.pad4 Store.pad2 app].
  change (JS.is_hyphen 45) with true. cbn [andb].
  rewrite (digits4_pad _ Hy), !digits2_pad.
  rewrite !Z.mod_small by lia.
  destruct (Z.leb_spec 1 (Store.month d)); [|lia].
  destruct (Z.leb_spec (Store.month d) 12); [|lia].
  destruct (Z.leb_spec 1 (Store.day d)); [|lia].
  destruct (Z.leb_spec (Store.day d)
              (JS.DaysInMonth (Store.year d) (Store.month d))); [|lia].
  reflexivity.
Qed.

(** X8: a date of the [DATE] column, printed in a response and read back by
    the page, is the day it was: for every calendar date with a year from
    0000 to 9999, [new Date] of its JSON form is a valid date, midnight UTC
    of that day. *)
Theorem date_to_json_parses (d : Store.SqlDate) :
  valid_date d ->
  JS.parse_day (Store.date_to_json d) = Some (day_number d)
  /\ JS.Date_parse (Store.date_to_json d) = Some (JS.msPerDay * day_number d).
Proof.
  intros Hv. pose proof (date_to_json_day d Hv) as H.
  split; [exact H|]. unfold JS.Date_parse. rewrite H. reflexivity.
Qed.

Lemma date_to_json_parses_witness :
  JS.parse_day (Store.date_to_json (Store.mkDate 2024 2 29)) = Some 19782
  /\ JS.Date_parse (Store.date_to_json (Store.mkDate 2024 2 29))
     = Some (JS.msPerDay * 19782).
Proof.
  apply (date_to_json_parses (Store.mkDate 2024 2 29)).
  vm_compute. repeat split; discriminate.
Defined.

Lemma filter_length_map {A B} (f : A -> B) (p : B -> bool) (l : list A) :
  length (filter p (map f l)) = length (filter (fun a => p (f a)) l).
Proof.
  induction l as [|a l IH]; cbn [map filter]; [reflexivity|].
  destruct (p (f a)); cbn [length]; congruence.
Qed.

Lemma filter_length_ext_in {A} (p q : A -> bool) (l : list A) :
  (forall a, In a l -> p a = q a) -> length (filter p l) = length (filter q l).
Proof.
  intros H. rewrite (filter_ext_in p q l H). reflexivity.
Qed.

Lemma select_workouts_In env limit db w :
  In w (Store.select_workouts env limit db) ->
  In w (Store.workouts db) /\ Store.is_caller env (Store.w_user_id w) = true.
Proof.
  intros H.
  apply (proj1 (filter_In (fun v => Store.is_caller env (Store.w_user_id v)) w
                          (Store.workouts db))).
  eapply Permutation_in; [apply order_by_date_desc_perm|].
  unfold Store.select_workouts in H.
  destruct limit as [n|]; [|exact H].
  rewrite <- (firstn_skipn n). apply in_or_app. left. exact H.
Qed.

Lemma of_row_in_window k now r :
  valid_date (Store.w_date r) ->
  JS.Date_ge (JS.Date_parse (Dashboard.date (Dashboard.of_row r)))
             (Some (now - k * JS.msPerDay))
  = (Spec.today now - k + past_midnight now <=? day_number (Store.w_date r)).
Proof.
  intros Hv. rewrite in_window_days. unfold Spec.on_or_after.
  cbn [Dashboard.of_row Dashboard.date].
  rewrite (date_to_json_day _ Hv). reflexivity.
Qed.

(** X9: when the dates of the store are calendar dates, the counters of the
    dashboard are counts on the stored dates themselves: [thisWeek] is the
    number of the rows returned whose date is on or after the UTC date of
    [now] minus 7 days (minus 6 once [now] is past midnight UTC), and
    [thisMonth] the same with 30 (29); no row is lost to a date that would
    not parse. *)
Theorem fetchWorkouts_counts_stored_dates env now db s :
  Forall (fun w => valid_date (Store.w_date w)) (Store.workouts db) ->
  let rows := Store.select_workouts env (Some 5%nat) db in
  let st := Dashboard.stats (fst (Dashboard.fetchWorkouts None env now db s)) in
  Dashboard.thisWeek st
  = length (filter (fun r => Spec.today now - 7 + past_midnight now
                             <=? day_number (Store.w_date r)) rows)
  /\ Dashboard.thisMonth st
     = length (filter (fun r => Spec.today now - 30 + past_midnight now
                                <=? day_number (Store.w_date r)) rows).
Proof.
  intros Hvalid. rewrite Forall_forall in Hvalid.
  cbn [Dashboard.fetchWorkouts fst Dashboard.setLoading Dashboard.calculateStats
       Dashboard.setStats Dashboard.stats Dashboard.thisWeek Dashboard.thisMonth].
  cbv zeta. rewrite !filter_length_map.
  split; apply filter_length_ext_in; intros r Hr;
    apply select_workouts_In in Hr; destruct Hr as [Hr _].
  - apply (of_row_in_window 7). apply Hvalid. exact Hr.
  - apply (of_row_in_window 30). apply Hvalid. exact Hr.
Qed.

(** X10: after a [fetchWorkouts] whose request succeeds the page holds the
    rows returned, [totalWorkouts] is the number of workouts it lists, which
    is the number of the caller's workouts or 5 if they are more, and the
    page is no longer loading.  After one whose request fails the list and
    the statistics are those of before, the page is no longer loading, and
    the one toast shown carries the message of the error. *)
Theorem fetchWorkouts_outcome env now db s :
  (let s' := fst (Dashboard.fetchWorkouts None env now db s) in
   Dashboard.workouts s'
   = map Dashboard.of_row (Store.select_workouts env (Some 5%nat) db)
   /\ Dashboard.totalWorkouts (Dashboard.stats s') = length (Dashboard.workouts s')
   /\ length (Dashboard.workouts s') = Nat.min 5 (length (own_workouts env db))
   /\ Dashboard.loading s' = false
   /\ snd (Dashboard.fetchWorkouts None env now db s) = [])
  /\ (forall e,
         let s' := fst (Dashboard.fetchWorkouts (Some e) env now db s) in
         Dashboard.workouts s' = Dashboard.workouts s
         /\ Dashboard.stats s' = Dashboard.stats s
         /\ Dashboard.loading s' = false
         /\ snd (Dashboard.fetchWorkouts (Some e) env now db s)
            = [UI.Toast (UI.mkToast UI.ErroAoCarregarTreinos
                           (Some (UI.message_of e)) UI.destructive)]).
Proof.
  split; [|intros e; repeat split].
  cbn [Dashboard.fetchWorkouts fst snd Dashboard.setLoading Dashboard.calculateStats
       Dashboard.setStats Dashboard.setWorkouts Dashboard.stats Dashboard.workouts
       Dashboard.loading Dashboard.totalWorkouts].
  cbv zeta. repeat split.
  rewrite length_map. unfold Store.select_workouts, own_workouts.
  rewrite length_firstn, (Permutation_length (order_by_date_desc_perm _)).
  reflexivity.
Qed.

Lemma fetchWorkouts_counts_stored_dates_witness :
  Dashboard.thisWeek
    (Dashboard.stats
       (fst (Dashboard.fetchWorkouts None (session 0 "s")
               (jan31 + 12 * 3600000) two_users Dashboard.initial)))
  = 1%nat
  /\ Dashboard.thisMonth
       (Dashboard.stats
          (fst (Dashboard.fetchWorkouts None (session 0 "s")
                  (jan31 + 12 * 3600000) two_users Dashboard.initial)))
     = 1%nat.
Proof.
  apply (fetchWorkouts_counts_stored_dates (session 0 "s") (jan31 + 12 * 3600000)
           two_users Dashboard.initial).
  repeat constructor; vm_compute; discriminate.
Defined.

(* ================================================================= *)
(** ** Further properties of the history page *)

(** The page after a [fetchWorkouts] whose first request is answered. *)
Lemma history_fetch_result lost env db s :
  let s' := fst (History.fetchWorkouts None lost env db s) in
  map History.id (History.workouts s')
  = map Store.w_id (Store.select_workouts env None db)
  /\ Forall (fun w =>
               History.expanded w = Some false
               /\ History.exercises w
                  = Some (if lost (History.id w) then []
                          else map History.exercise_of_row
                                   (filter (fun e => JS.eqb (Store.e_workout_id e)
                                                            (History.id w))
                                           (Store.exercises db))))
            (History.workouts s')
  /\ History.loading s' = false.
Proof.
  cbn [History.fetchWorkouts fst History.setLoading History.setWorkouts
       History.workouts History.loading].
  cbv zeta. split; [|split; [|reflexivity]].
  - rewrite map_map. reflexivity.
  - apply Forall_forall. intros w Hw. apply in_map_iff in Hw.
    destruct Hw as (r & <- & Hr). cbn [History.expanded History.exercises History.id].
    split; [reflexivity|].
    destruct (lost (Store.w_id r)); [reflexivity|].
    apply select_workouts_In in Hr. destruct Hr as [Hin Hown].
    assert (Ho : Store.owns_workout env (Store.w_id r) db = true)
      by (apply owns_workout_In; exists r; auto).
    rewrite (select_exercises_own _ _ _ Ho). reflexivity.
Qed.

(** X11: after a [fetchWorkouts] whose first request succeeds the history
    lists the caller's workouts, newest first, every one collapsed; under
    each workout are the exercises of the store that reference its id, all
    of them and in storage order, or none when the request for them failed.
    The page is no longer loading.  When the first request fails the list
    stays as it was. *)
Theorem history_fetchWorkouts_outcome lost env db s :
  (let s' := fst (History.fetchWorkouts None lost env db s) in
   map History.id (History.workouts s')
   = map Store.w_id (Store.select_workouts env None db)
   /\ Forall (fun w =>
                History.expanded w = Some false
                /\ History.exercises w
                   = Some (if lost (History.id w) then []
                           else map History.exercise_of_row
                                    (filter (fun e => JS.eqb (Store.e_workout_id e)
                                                             (History.id w))
                                            (Store.exercises db))))
             (History.workouts s')
   /\ History.loading s' = false)
  /\ (forall e,
         History.workouts (fst (History.fetchWorkouts (Some e) lost env db s))
         = History.workouts s
         /\ History.loading (fst (History.fetchWorkouts (Some e) lost env db s))
            = false).
Proof.
  split; [exact (history_fetch_result lost env db s)|].
  intros e. split; reflexivity.
Qed.

Lemma toggle_step_comm i j (w : History.Workout) :
  (let w' := if JS.eqb (History.id w) i then History.toggled w else w in
   if JS.eqb (History.id w') j then History.toggled w' else w')
  = (let w' := if JS.eqb (History.id w) j then History.toggled w else w in
     if JS.eqb (History.id w') i then History.toggled w' else w').
Proof.
  cbv zeta.
  destruct (JS.eqb (History.id w) i) eqn:Hi; destruct (JS.eqb (History.id w) j) eqn:Hj;
    cbn [History.toggled History.id]; rewrite ?Hi, ?Hj; reflexivity.
Qed.

(** X12: toggling two workouts gives the same page in either order, and a
    toggle changes neither the ids nor the order of the list: what is
    expanded depends on which rows were clicked, not on the order of the
    clicks. *)
Theorem toggleWorkout_commutes i j s :
  History.toggleWorkout i (History.toggleWorkout j s)
  = History.toggleWorkout j (History.toggleWorkout i s)
  /\ map History.id (History.workouts (History.toggleWorkout i s))
     = map History.id (History.workouts s).
Proof.
  unfold History.toggleWorkout, History.setWorkouts.
  cbn [History.workouts History.loading]. split.
  - f_equal. rewrite !map_map. apply map_ext. intros w.
    symmetry. apply (toggle_step_comm i j w).
  - rewrite map_map. apply map_ext. intros w.
    destruct (JS.eqb (History.id w) i); reflexivity.
Qed.

Lemma visited_expanded_set s : visited s -> forall i, expanded_set i (History.workouts s).
Proof.
  induction 1 as [|fault lost env db s _ IH|j s _ IH]; intros i.
  - constructor.
  - apply fetchWorkouts_expanded_set. apply IH.
  - apply toggleWorkout_expanded_set. apply IH.
Qed.

(** X13: on the history page as it really is, that is in any state reached
    from the first one by fetches and toggles, toggling a workout twice
    gives the page back exactly, and three toggles are one. *)
Theorem visited_toggle_twice s i :
  visited s ->
  History.toggleWorkout i (History.toggleWorkout i s) = s
  /\ History.toggleWorkout i (History.toggleWorkout i (History.toggleWorkout i s))
     = History.toggleWorkout i s.
Proof.
  intros Hs.
  assert (Htwice : forall s', visited s' ->
            History.toggleWorkout i (History.toggleWorkout i s') = s').
  { intros s' Hs'. destruct s' as [ws l].
    unfold History.toggleWorkout, History.setWorkouts.
    cbn [History.workouts History.loading].
    rewrite (toggle_map_twice i ws (visited_expanded_set _ Hs' i)). reflexivity. }
  split; [apply Htwice; exact Hs|].
  apply Htwice. constructor. exact Hs.
Qed.

Lemma visited_toggle_twice_witness :
  History.toggleWorkout (JS.lit "w0")
    (History.toggleWorkout (JS.lit "w0")
       (fst (History.fetchWorkouts None (fun _ => false) (session 0 "s") two_users
               History.initial)))
  = fst (History.fetchWorkouts None (fun _ => false) (session 0 "s") two_users
           History.initial).
Proof.
  apply (proj1 (visited_toggle_twice _ (JS.lit "w0")
                  (visited_fetch None (fun _ => false) (session 0 "s") two_users
                     History.initial visited_initial))).
Defined.

Example history_lists_own_workouts :
  map (fun w => (History.id w, option_map (map History.ex_id) (History.exercises w)))
      (History.workouts
         (fst (History.fetchWorkouts None (fun _ => false) (session 0 "s") two_users
                 History.initial)))
  = [(JS.lit "w0", Some [JS.lit "e0"])].
Proof. vm_compute. reflexivity. Qed.

(* ================================================================= *)
(** ** Further properties of the new-workout page *)

Lemma trimStart_blank s : JS.trimStart s = [] <-> forallb JS.is_space s = true.
Proof.
  induction s as [|c s IH]; cbn [JS.trimStart forallb]; [tauto|].
  destruct (JS.is_space c); cbn [andb]; [exact IH|].
  split; discriminate.
Qed.

Lemma trimStart_snoc l c : JS.is_space c = false -> JS.trimStart (l ++ [c]) <> [].
Proof.
  intros Hc. induction l as [|a l IH]; cbn [app JS.trimStart].
  - rewrite Hc. discriminate.
  - destruct (JS.is_space a); [exact IH | discriminate].
Qed.

Lemma trimStart_head s c r : JS.trimStart s = c :: r -> JS.is_space c = false.
Proof.
  induction s as [|a s IH]; cbn [JS.trimStart]; [discriminate|].
  destruct (JS.is_space a) eqn:Ha; [exact IH|].
  intros H; injection H as -> _. exact Ha.
Qed.

Lemma trim_blank s : JS.trim s = [] <-> forallb JS.is_space s = true.
Proof.
  rewrite <- trimStart_blank. unfold JS.trim, JS.trimEnd.
  destruct (JS.trimStart s) as [|c r] eqn:Hs; [cbn; tauto|].
  split; [|discriminate]. intros H.
  apply (f_equal (@rev N)) in H. rewrite rev_involutive in H. cbn [rev] in H.
  exfalso. revert H. apply trimStart_snoc.
  apply (trimStart_head s c r Hs).
Qed.

(** The five ways [saveWorkout] ends. *)
Lemma saveWorkout_cases user x1 x2 s db :
  let out := saveWorkout user x1 x2 s db in
  (JS.trim (workoutName s) = []
   /\ out = mkOutcome s [validation_toast UI.NomeDoTreinoObrigatorio] db)
  \/ (JS.trim (workoutName s) <> [] /\ exercises s = []
      /\ out = mkOutcome s [validation_toast UI.AdicionePeloMenosUmExercicio] db)
  \/ (JS.trim (workoutName s) <> [] /\ exercises s <> []
      /\ state out = setSaving false s
      /\ ((exists d, events out = save_failed d /\ store out = db)
          \/ (exists d uid workout,
                 user = Some uid
                 /\ insert_workout_request uid x1 s db = (Store.Ok workout, store out)
                 /\ events out = save_failed d)
          \/ (exists uid workout db1 u,
                 user = Some uid
                 /\ insert_workout_request uid x1 s db = (Store.Ok workout, db1)
                 /\ insert_exercises_request workout x2 s db1 = (Store.Ok u, store out)
                 /\ events out = success_events))).
Proof.
  cbv zeta.
  destruct (JS.trim (workoutName s)) as [|c cs] eqn:Hn.
  { left. split; [reflexivity|]. apply saveWorkout_blank. exact Hn. }
  assert (Hn' : JS.trim (workoutName s) <> []) by (rewrite Hn; discriminate).
  rewrite <- Hn. clear c cs Hn.
  destruct (exercises s) as [|ex exs] eqn:Hex.
  { right. left. split; [exact Hn'|]. split; [reflexivity|].
    apply saveWorkout_no_exercise; assumption. }
  assert (He : exercises s <> []) by (rewrite Hex; discriminate).
  rewrite <- Hex. clear ex exs Hex.
  right. right. split; [exact Hn'|]. split; [exact He|].
  destruct user as [uid|].
  - rewrite (saveWorkout_submits uid x1 x2 s db Hn' He).
    destruct (insert_workout_request uid x1 s db) as [[workout|e1] db1] eqn:H1.
    + destruct (insert_exercises_request workout x2 s db1) as [[u|e2] db2] eqn:H2.
      * split; [reflexivity|]. right. right.
        exists uid, workout, db1, u. cbn [store events]. auto.
      * split; [reflexivity|]. right. left.
        apply insert_exercises_request_inv in H2. subst db2.
        exists (UI.message_of e2), uid, workout. cbn [failed store events]. auto.
    + split; [reflexivity|]. left. exists (UI.message_of e1).
      apply insert_workout_request_inv in H1. subst db1. split; reflexivity.
  - unfold saveWorkout.
    destruct (JS.trim (workoutName s)); [contradiction|].
    destruct (exercises s); [contradiction|].
    cbn [JS.truthy_string negb length Nat.eqb].
    split; [reflexivity|]. left. exists UI.message_of_TypeError. split; reflexivity.
Qed.

(** X14: [saveWorkout] asks for a name exactly when the name typed is made
    of white space only, the empty name included, and for an exercise
    exactly when the name has another character and the list is empty.  In
    both cases nothing is sent and nothing changes. *)
Theorem saveWorkout_validation_toasts user x1 x2 s db :
  (events (saveWorkout user x1 x2 s db) = [validation_toast UI.NomeDoTreinoObrigatorio]
   <-> forallb JS.is_space (workoutName s) = true)
  /\ (events (saveWorkout user x1 x2 s db)
      = [validation_toast UI.AdicionePeloMenosUmExercicio]
      <-> forallb JS.is_space (workoutName s) = false /\ exercises s = [])
  /\ (forall t, events (saveWorkout user x1 x2 s db) = [validation_toast t] ->
                saveWorkout user x1 x2 s db = mkOutcome s [validation_toast t] db).
Proof.
  rewrite <- Bool.not_true_iff_false, <- trim_blank.
  destruct (saveWorkout_cases user x1 x2 s db)
    as [[Hn ->] | [(Hn & He & ->) | (Hn & He & _ & Hrest)]]; cbn [events].
  - split; [tauto|]. split.
    + split; [discriminate | tauto].
    + intros t Ht. injection Ht as <-. reflexivity.
  - split; [split; [discriminate | tauto]|]. split.
    + tauto.
    + intros t Ht. injection Ht as <-. reflexivity.
  - assert (Hno : forall t, events (saveWorkout user x1 x2 s db)
                            <> [validation_toast t]).
    { intros t.
      destruct Hrest as [(d & -> & _) | [(d & uid & w & _ & _ & ->)
                                        | (uid & w & db1 & u & _ & _ & _ & ->)]];
        discriminate. }
    split; [split; [intros H; exfalso; exact (Hno _ H) | tauto]|]. split.
    + split; [intros H; exfalso; exact (Hno _ H) | tauto].
    + intros t H. exfalso. exact (Hno _ H).
Qed.

Lemma is_caller_auth env u :
  Store.is_caller env u = true -> Store.auth_uid env = Some u.
Proof.
  unfold Store.is_caller. destruct (Store.auth_uid env) as [c|]; [|discriminate].
  rewrite eqb_eq. congruence.
Qed.

Lemma insert_workout_request_row uid x1 s db workout db1 :
  insert_workout_request uid x1 s db = (Store.Ok workout, db1) ->
  Store.auth_uid (env x1) = Some uid
  /\ workout = Store.mkWorkoutRow (Store.gen_random_uuid (env x1) 0%nat) uid
                 (workoutName s) (Store.current_date (env x1))
                 (Some (workoutNotes s)) (Store.now (env x1)) (Store.now (env x1))
  /\ db1 = Store.mkDB (Store.workouts db ++ [workout]) (Store.exercises db).
Proof.
  intros H. apply request_inv in H.
  destruct H as [(e & _ & He & _) | [_ H]]; [discriminate He|].
  apply insert_workout_inv in H. destruct H as (Hdb & Hrow & Hc).
  split; [apply is_caller_auth; exact Hc | split; assumption].
Qed.

(** X15: [saveWorkout] only ever adds to the store.  Whatever the form, the
    user and the fate of the two requests, the workouts and the exercises
    that were in the store are still there, unchanged and in place; at most
    one workout is added, for the signed-in user, who is also the caller
    that the store sees, with the name exactly as typed, white space around
    it included, the notes as typed and the store's current date; and the
    exercises added are either none or one per exercise of the form, all
    referencing that workout. *)
Theorem saveWorkout_only_appends user x1 x2 s db :
  exists ws es,
    Store.workouts (store (saveWorkout user x1 x2 s db)) = Store.workouts db ++ ws
    /\ Store.exercises (store (saveWorkout user x1 x2 s db)) = Store.exercises db ++ es
    /\ (length ws <= 1)%nat
    /\ Forall (fun w => user = Some (Store.w_user_id w)
                        /\ Store.auth_uid (env x1) = user
                        /\ Store.w_name w = workoutName s
                        /\ Store.w_notes w = Some (workoutNotes s)
                        /\ Store.w_date w = Store.current_date (env x1)) ws
    /\ (es = [] \/ length es = length (exercises s))
    /\ Forall (fun e => exists w, In w ws /\ Store.e_workout_id e = Store.w_id w) es.
Proof.
  assert (Hnone : forall db0 : Store.DB, exists ws es,
             Store.workouts db0 = Store.workouts db0 ++ ws
             /\ Store.exercises db0 = Store.exercises db0 ++ es
             /\ (length ws <= 1)%nat
             /\ Forall (fun w => user = Some (Store.w_user_id w)
                                 /\ Store.auth_uid (env x1) = user
                                 /\ Store.w_name w = workoutName s
                                 /\ Store.w_notes w = Some (workoutNotes s)
                                 /\ Store.w_date w = Store.current_date (env x1)) ws
             /\ (es = [] \/ length es = length (exercises s))
             /\ Forall (fun e => exists w, In w ws
                                           /\ Store.e_workout_id e = Store.w_id w) es).
  { intros db0. exists [], []. rewrite !app_nil_r. cbn [length].
    repeat split; auto. }
  destruct (saveWorkout_cases user x1 x2 s db)
    as [[_ ->] | [(_ & _ & ->) | (_ & _ & _ & Hrest)]]; cbn [store];
    try apply Hnone.
  destruct Hrest as [(d & _ & ->) | [(d & uid & w & -> & H1 & _)
                                    | (uid & w & db1 & u & -> & H1 & H2 & _)]];
    [apply Hnone | |].
  - apply insert_workout_request_row in H1. destruct H1 as (Hauth & Hrow & ->).
    exists [w], []. cbn [Store.workouts Store.exercises length].
    rewrite app_nil_r. repeat split; auto.
    constructor; [|constructor]. rewrite Hrow. cbn. auto.
  - apply insert_workout_request_row in H1. destruct H1 as (Hauth & Hrow & ->).
    apply insert_exercises_request_inv in H2. destruct H2 as (rows & -> & Hrows).
    exists [w], rows. cbn [Store.workouts Store.exercises length].
    repeat split; auto.
    + constructor; [|constructor]. rewrite Hrow. cbn. auto.
    + right. symmetry. eapply Forall2_length. exact Hrows.
    + clear -Hrows. induction Hrows as [|ex r exs rows Hr _ IH]; constructor.
      * exists w. split; [left; reflexivity | apply Hr].
      * exact IH.
Qed.

Lemma saveWorkout_validation_toasts_witness :
  saveWorkout (Some alice) (reaches 1000 "w") (reaches 2000 "e")
              (mkState (JS.lit "Treino") [] [] false) Store.empty
  = mkOutcome (mkState (JS.lit "Treino") [] [] false)
              [validation_toast UI.AdicionePeloMenosUmExercicio] Store.empty.
Proof.
  apply (proj2 (proj2 (saveWorkout_validation_toasts (Some alice) (reaches 1000 "w")
                         (reaches 2000 "e") (mkState (JS.lit "Treino") [] [] false)
                         Store.empty))).
  vm_compute. reflexivity.
Defined.

(** X17: without a user in the authentication context [saveWorkout] sends
    nothing: the store is as before and the page stays; past the two checks
    of the form, what is shown is the failure toast with the message of the
    TypeError that reading [user.id] throws. *)
Theorem saveWorkout_signed_out x1 x2 s db :
  store (saveWorkout None x1 x2 s db) = db
  /\ ~ In (UI.Navigate UI.Home) (events (saveWorkout None x1 x2 s db))
  /\ (forallb JS.is_space (workoutName s) = false -> exercises s <> [] ->
      saveWorkout None x1 x2 s db
      = mkOutcome (setSaving false s) (save_failed UI.message_of_TypeError) db).
Proof.
  unfold saveWorkout.
  destruct (JS.trim (workoutName s)) as [|c cs] eqn:Hn; cbn [JS.truthy_string negb].
  - split; [reflexivity|]. split; [intros [H|[]]; discriminate H|].
    intros Hb. apply trim_blank in Hn. rewrite Hn in Hb. discriminate Hb.
  - destruct (exercises s) as [|ex exs]; cbn [length Nat.eqb].
    + split; [reflexivity|]. split; [intros [H|[]]; discriminate H|].
      intros _ H. contradiction.
    + split; [reflexivity|]. split; [intros [H|[]]; discriminate H|].
      intros _ _. reflexivity.
Qed.

Lemma saveWorkout_signed_out_witness :
  saveWorkout None (reaches 1000 "w") (reaches 2000 "e") (form [squat 3]) two_users
  = mkOutcome (setSaving false (form [squat 3]))
              (save_failed UI.message_of_TypeError) two_users.
Proof.
  apply (proj2 (proj2 (saveWorkout_signed_out (reaches 1000 "w") (reaches 2000 "e")
                         (form [squat 3]) two_users))).
  - vm_compute. reflexivity.
  - discriminate.
Defined.

(* ----- the list of exercises of the form ----- *)

Lemma filter_idem {A} (p : A -> bool) (l : list A) : filter p (filter p l) = filter p l.
Proof.
  apply filter_all. intros a Ha. apply filter_In in Ha. tauto.
Qed.

(** X18: [removeExercise] takes out of the form every exercise with the
    given id and nothing else, keeping the order of the others; removing
    twice is removing once; and removing the exercise that [addExercise] has
    just appended, under an id that no other exercise of the form has, gives
    the form back as it was. *)
Theorem removeExercise_spec i s :
  (forall ex, In ex (exercises (removeExercise i s))
              <-> In ex (exercises s) /\ id ex <> i)
  /\ removeExercise i (removeExercise i s) = removeExercise i s
  /\ (Forall (fun ex => id ex <> i) (exercises s) ->
      removeExercise i (addExercise i s) = s)
  /\ exercises (addExercise i s) = exercises s ++ [mkExercise i [] 0 0 0 []].
Proof.
  unfold removeExercise, addExercise, setExercises.
  cbn [exercises workoutName workoutNotes saving].
  split; [|split; [|split; [|reflexivity]]].
  - intros ex. rewrite filter_In, Bool.negb_true_iff, <- Bool.not_true_iff_false,
      eqb_eq. tauto.
  - rewrite filter_idem. reflexivity.
  - intros Hfresh. rewrite filter_app. cbn [filter id]. rewrite eqb_refl.
    cbn [negb]. rewrite app_nil_r, filter_all.
    + destruct s. reflexivity.
    + intros ex Hex. rewrite Forall_forall in Hfresh.
      apply Bool.negb_true_iff, Bool.not_true_iff_false. rewrite eqb_eq.
      apply Hfresh. exact Hex.
Qed.

Lemma removeExercise_spec_witness :
  removeExercise (JS.lit "c9") (addExercise (JS.lit "c9") (form [squat 3]))
  = form [squat 3].
Proof.
  apply (proj1 (proj2 (proj2 (removeExercise_spec (JS.lit "c9") (form [squat 3]))))).
  repeat constructor. discriminate.
Defined.

Lemma map_unless {A} (p : A -> bool) (f : A -> A) (l : list A) :
  (forall a, In a l -> p a = false) -> map (fun a => if p a then f a else a) l = l.
Proof.
  induction l as [|a l IH]; intros H; cbn [map]; [reflexivity|].
  rewrite (H a (or_introl eq_refl)). f_equal.
  apply IH. intros b Hb. apply H. right. exact Hb.
Qed.

Lemma assign_id a ex : keeps_id a -> id (assign a ex) = id ex.
Proof. destruct a; cbn; tauto. Qed.

Lemma assign_twice a ex : assign a (assign a ex) = assign a ex.
Proof. destruct a; reflexivity. Qed.

(** X19: [updateExercise] changes the given field of the exercises with the
    given id and nothing else: the number of exercises is the same; an id
    that no exercise has leaves the form as it is; and for a field other
    than [id], the ids and their order are the same and doing the update
    again changes nothing. *)
Theorem updateExercise_spec i a s :
  length (exercises (updateExercise i a s)) = length (exercises s)
  /\ (Forall (fun ex => id ex <> i) (exercises s) -> updateExercise i a s = s)
  /\ (keeps_id a ->
      map id (exercises (updateExercise i a s)) = map id (exercises s)
      /\ updateExercise i a (updateExercise i a s) = updateExercise i a s)
  /\ workoutName (updateExercise i a s) = workoutName s
  /\ workoutNotes (updateExercise i a s) = workoutNotes s
  /\ saving (updateExercise i a s) = saving s.
Proof.
  unfold updateExercise, setExercises.
  cbn [exercises workoutName workoutNotes saving].
  split; [apply length_map|]. split; [|split; [|repeat split]].
  - intros Hno. rewrite map_unless; [destruct s; reflexivity|].
    intros ex Hex. rewrite Forall_forall in Hno.
    apply Bool.not_true_iff_false. rewrite eqb_eq. apply Hno. exact Hex.
  - intros Hk. split.
    + rewrite map_map. apply map_ext. intros ex.
      destruct (JS.eqb (id ex) i); [apply assign_id; exact Hk | reflexivity].
    + f_equal. rewrite map_map. apply map_ext. intros ex.
      destruct (JS.eqb (id ex) i) eqn:Hi.
      * rewrite (assign_id a ex Hk), Hi. apply assign_twice.
      * rewrite Hi. reflexivity.
Qed.

Lemma updateExercise_spec_witness :
  updateExercise (JS.lit "c7") (to_sets 5) (form [squat 3]) = form [squat 3].
Proof.
  apply (proj1 (proj2 (updateExercise_spec (JS.lit "c7") (to_sets 5) (form [squat 3])))).
  repeat constructor. discriminate.
Defined.

(* ----- the inputs for sets and reps ----- *)

Lemma numeral_char_facts d :
  0 <= d <= 9 ->
  let c := Z.to_N (48 + d) in
  JS.radix_digit 10 c = Some d
  /\ JS.is_space c = false
  /\ (c =? 45)%N = false /\ (c =? 43)%N = false
  /\ (c =? 120)%N = false /\ (c =? 88)%N = false.
Proof.
  intros Hd.
  assert (H : d = 0 \/ d = 1 \/ d = 2 \/ d = 3 \/ d = 4 \/ d = 5 \/ d = 6
              \/ d = 7 \/ d = 8 \/ d = 9) by lia.
  repeat (destruct H as [->|H]; [vm_compute; repeat split|]).
  subst d. vm_compute. repeat split.
Qed.

Lemma digits_value_numeral ds :
  is_digits ds -> forall acc,
  JS.digits_value 10 acc (numeral ds)
  = match ds with
    | [] => acc
    | _ => Some (fold_left (fun a d => 10 * a + d) ds (JS.or_zero acc))
    end.
Proof.
  induction 1 as [|d ds Hd _ IH]; intros acc; [reflexivity|].
  cbn [numeral map JS.digits_value].
  rewrite (proj1 (numeral_char_facts d Hd)).
  fold (numeral ds). rewrite IH. cbn [fold_left].
  destruct ds; reflexivity.
Qed.

Lemma parseInt_plain c r :
  JS.is_space c = false -> (c =? 45)%N = false -> (c =? 43)%N = false ->
  no_hex_prefix (c :: r) ->
  JS.parseInt (c :: r) = option_map (Z.mul 1) (JS.digits_value 10 None (c :: r)).
Proof.
  intros Hsp H45 H43 Hx. unfold JS.parseInt. cbn [JS.trimStart].
  rewrite Hsp, H45, H43. cbn [fst snd].
  destruct r as [|x r']; [reflexivity|].
  cbn [no_hex_prefix] in Hx. rewrite Hx. reflexivity.
Qed.

Lemma parseInt_minus S :
  no_hex_prefix S ->
  JS.parseInt (45%N :: S) = option_map (Z.mul (-1)) (JS.digits_value 10 None S).
Proof.
  intros Hx. unfold JS.parseInt. cbn [JS.trimStart].
  change (JS.is_space 45) with false. cbv beta iota zeta.
  change (45 =? 45)%N with true. cbv beta iota. cbn [fst snd].
  destruct S as [|c [|x r']]; try reflexivity.
  cbn [no_hex_prefix] in Hx. rewrite Hx. reflexivity.
Qed.

Lemma parseInt_numeral ds :
  ds <> [] -> is_digits ds ->
  JS.parseInt (numeral ds) = Some (decimal ds)
  /\ JS.parseInt (45%N :: numeral ds) = Some (- decimal ds).
Proof.
  intros Hne Hds.
  assert (Hval : JS.digits_value 10 None (numeral ds) = Some (decimal ds)).
  { rewrite (digits_value_numeral ds Hds). destruct ds; [contradiction|reflexivity]. }
  assert (Hx : no_hex_prefix (numeral ds)).
  { destruct Hds as [|d ds Hd Hds]; [exact I|].
    destruct Hds as [|d2 ds Hd2 Hds]; [exact I|].
    cbn [numeral map no_hex_prefix].
    destruct (numeral_char_facts d2 Hd2) as (_ & _ & _ & _ & H120 & H88).
    cbv zeta in H120, H88. rewrite H120, H88. apply Bool.andb_false_r. }
  split.
  - destruct Hds as [|d ds Hd Hds]; [contradiction|].
    destruct (numeral_char_facts d Hd) as (_ & Hsp & H45 & H43 & _).
    change (numeral (d :: ds)) with (Z.to_N (48 + d) :: numeral ds) in *.
    rewrite (parseInt_plain _ _ Hsp H45 H43 Hx), Hval.
    cbn [option_map]. f_equal; lia.
  - rewrite (parseInt_minus _ Hx), Hval. cbn [option_map]. f_equal; lia.
Qed.

(** X20: what the inputs for sets and reps put in the form.  A value made of
    decimal digits puts the number they write; the same after a minus sign
    puts its negative, the [min] of the input not being checked by the
    handler; the empty value, and a value that starts with neither a digit,
    a sign nor white space, put 0.  (Up to 15 digits, where a number of
    JavaScript is the integer itself.) *)
Theorem onSetsChange_digits i ds s :
  ds <> [] -> is_digits ds -> (length ds <= 15)%nat ->
  onSetsChange i (numeral ds) s = updateExercise i (to_sets (decimal ds)) s
  /\ onSetsChange i (45%N :: numeral ds) s = updateExercise i (to_sets (- decimal ds)) s
  /\ onRepsChange i (numeral ds) s = updateExercise i (to_reps (decimal ds)) s
  /\ onRepsChange i (45%N :: numeral ds) s = updateExercise i (to_reps (- decimal ds)) s
  /\ onSetsChange i [] s = updateExercise i (to_sets 0) s
  /\ (forall c rest,
         JS.is_space c = false -> JS.radix_digit 10 c = None ->
         (c =? 45)%N = false -> (c =? 43)%N = false ->
         onSetsChange i (c :: rest) s = updateExercise i (to_sets 0) s).
Proof.
  intros Hne Hds _.
  destruct (parseInt_numeral ds Hne Hds) as [Hplain Hminus].
  unfold onSetsChange, onRepsChange. rewrite Hplain, Hminus.
  repeat split.
  intros c rest Hsp Hdig H45 H43.
  unfold JS.parseInt. cbn [JS.trimStart]. rewrite Hsp, H45, H43. cbn [snd fst].
  destruct rest as [|x S'].
  - cbn [fst snd JS.digits_value]. rewrite Hdig. reflexivity.
  - destruct ((c =? 48)%N) eqn:H48.
    + apply N.eqb_eq in H48. subst c. vm_compute in Hdig. discriminate Hdig.
    + cbn [andb fst snd JS.digits_value]. rewrite Hdig. reflexivity.
Qed.

Lemma onSetsChange_digits_witness :
  onSetsChange (JS.lit "c1") (JS.lit "-12") (form [squat 3]) = form [squat (-12)].
Proof.
  apply (proj1 (proj2 (onSetsChange_digits (JS.lit "c1") [1; 2] (form [squat 3])
                         ltac:(discriminate)
                         ltac:(repeat constructor; lia)
                         ltac:(cbn; lia)))).
Defined.

Example parseInt_samples :
  map (fun v => JS.or_zero (JS.parseInt (JS.lit v)))
      ["42"; "  42"; "+7"; "-5"; "12abc"; "3.7"; "1e3"; "abc"; ""; "-"; "0x1f";
       "0x"; "007"]%string
  = [42; 42; 7; -5; 12; 3; 1; 0; 0; 0; 31; 0; 7].
Proof. vm_compute. reflexivity. Qed.

(* ================================================================= *)
(** ** Properties of the sign-in page *)

(** X21: [validateForm] accepts the form exactly when the e-mail passes the
    e-mail test and has at most 255 code units, the password has from 6 to
    100, and, when creating an account, the user name has at most 100; when
    signing in the user name is not looked at.  It then clears the errors;
    otherwise it leaves a message under each field that fails and under no
    other, the message of the last failing check of the field.  The fields
    themselves are never changed. *)
Theorem validateForm_spec is_email s :
  let r := AuthPage.validateForm is_email s in
  let e := AuthPage.errors (snd r) in
  fst r = email_ok is_email s && password_ok s && username_ok s
  /\ (AuthPage.e_email e = None <-> email_ok is_email s = true)
  /\ (AuthPage.e_password e = None <-> password_ok s = true)
  /\ (AuthPage.e_username e = None <-> username_ok s = true)
  /\ (255 < AuthPage.len (AuthPage.email s) ->
      AuthPage.e_email e = Some (AuthPage.AtMost 255))
  /\ (AuthPage.len (AuthPage.password s) < 6 ->
      AuthPage.e_password e = Some AuthPage.SenhaMinimo6)
  /\ AuthPage.setErrors (AuthPage.errors s) (snd r) = s.
Proof.
  destruct s as [login em pw un errs].
  unfold AuthPage.validateForm, AuthPage.issues, email_ok, password_ok, username_ok.
  cbn [AuthPage.isLogin AuthPage.email AuthPage.password AuthPage.username
       AuthPage.errors].
  destruct (is_email em); destruct login;
    destruct (Z.ltb_spec0 255 (AuthPage.len em));
    destruct (Z.ltb_spec0 (AuthPage.len pw) 6);
    destruct (Z.ltb_spec0 100 (AuthPage.len pw));
    try destruct (Z.ltb_spec0 100 (AuthPage.len un));
    destruct (Z.leb_spec0 (AuthPage.len em) 255);
    destruct (Z.leb_spec0 6 (AuthPage.len pw));
    destruct (Z.leb_spec0 (AuthPage.len pw) 100);
    try destruct (Z.leb_spec0 (AuthPage.len un) 100);
    try lia;
    cbn; repeat split; try reflexivity; try discriminate; try lia;
    intros; try discriminate; try lia.
Qed.

(** X22: [handleSubmit] calls the authentication context only with a form
    that [validateForm] accepts: [signIn] and [signUp] never receive an
    e-mail that fails the e-mail test or is longer than 255 code units, nor
    a password shorter than 6 or longer than 100.  When signing in it is
    [signIn] with the e-mail and password typed, the user name being
    neither checked nor sent; when creating an account it is [signUp] with
    the three fields, the user name of at most 100 code units.  A call is
    made with the errors cleared; without a call at least one field shows a
    message. *)
Theorem handleSubmit_spec is_email s :
  let r := AuthPage.handleSubmit is_email s in
  match fst r with
  | Some c =>
      is_email (AuthPage.email s) = true
      /\ AuthPage.len (AuthPage.email s) <= 255
      /\ 6 <= AuthPage.len (AuthPage.password s) <= 100
      /\ c = (if AuthPage.isLogin s
              then AuthPage.signIn (AuthPage.email s) (AuthPage.password s)
              else AuthPage.signUp (AuthPage.email s) (AuthPage.password s)
                                   (AuthPage.username s))
      /\ (AuthPage.isLogin s = false -> AuthPage.len (AuthPage.username s) <= 100)
      /\ AuthPage.errors (snd r) = AuthPage.no_errors
  | None =>
      email_ok is_email s && password_ok s && username_ok s = false
      /\ AuthPage.errors (snd r) <> AuthPage.no_errors
  end.
Proof.
  destruct s as [login em pw un errs].
  unfold AuthPage.handleSubmit, AuthPage.validateForm, AuthPage.issues,
    email_ok, password_ok, username_ok.
  cbn [AuthPage.isLogin AuthPage.email AuthPage.password AuthPage.username
       AuthPage.errors].
  destruct (is_email em); destruct login;
    destruct (Z.ltb_spec0 255 (AuthPage.len em));
    destruct (Z.ltb_spec0 (AuthPage.len pw) 6);
    destruct (Z.ltb_spec0 100 (AuthPage.len pw));
    try destruct (Z.ltb_spec0 100 (AuthPage.len un));
    destruct (Z.leb_spec0 (AuthPage.len em) 255);
    destruct (Z.leb_spec0 6 (AuthPage.len pw));
    destruct (Z.leb_spec0 (AuthPage.len pw) 100);
    try destruct (Z.leb_spec0 (AuthPage.len un) 100);
    try lia;
    cbn; repeat split; try reflexivity; try discriminate; try lia;
    intros; try discriminate; try lia.
Qed.

Example signing_in_ignores_username :
  fst (AuthPage.handleSubmit (fun _ => true)
         (AuthPage.mkState true (JS.lit "a@b.co") (JS.lit "secret")
                           (repeat 120%N 101) AuthPage.no_errors))
  = Some (AuthPage.signIn (JS.lit "a@b.co") (JS.lit "secret")).
Proof. vm_compute. reflexivity. Qed.

Example short_password_is_stopped :
  AuthPage.handleSubmit (fun _ => true)
    (AuthPage.mkState true (JS.lit "a@b.co") (JS.lit "12345") [] AuthPage.no_errors)
  = (None,
     AuthPage.mkState true (JS.lit "a@b.co") (JS.lit "12345") []
       (AuthPage.mkErrors None (Some AuthPage.SenhaMinimo6) None)).
Proof. vm_compute. reflexivity. Qed.

Lemma validateForm_spec_witness :
  AuthPage.e_password
    (AuthPage.errors (snd (AuthPage.validateForm (fun _ => true) sign_up_form)))
  = Some AuthPage.SenhaMinimo6.
Proof.
  apply (proj1 (proj2 (proj2 (proj2 (proj2 (proj2
           (validateForm_spec (fun _ => true) sign_up_form))))))).
  vm_compute. reflexivity.
Defined.

Lemma handleSubmit_spec_witness :
  AuthPage.len (AuthPage.username sign_up_ok) <= 100.
Proof.
  pose proof (handleSubmit_spec (fun _ => true) sign_up_ok) as H.
  cbv zeta in H.
  change (fst (AuthPage.handleSubmit (fun _ => true) sign_up_ok))
    with (Some (AuthPage.signUp (JS.lit "a@b.co") (JS.lit "123456") (JS.lit "ana")))
    in H.
  destruct H as (_ & _ & _ & _ & H & _). apply H. reflexivity.
Defined.

(* ================================================================= *)
(** ** From one page to the next *)

Lemma insert_workout_fresh env u n nt db row db' :
  Store.insert_workout env u n nt db = (Store.Ok row, db') ->
  Store.has_workout_id (Store.w_id row) db = false.
Proof.
  unfold Store.insert_workout.
  destruct (negb (Store.is_text n && Store.is_text nt)); [discriminate|].
  destruct (negb (Store.is_caller env u)); [discriminate|].
  destruct (Store.has_workout_id _ db) eqn:Hid; [discriminate|].
  intros H; injection H as <- _. exact Hid.
Qed.

Lemma is_caller_of_auth env u :
  Store.auth_uid env = Some u -> Store.is_caller env u = true.
Proof. unfold Store.is_caller. intros ->. apply eqb_refl. Qed.

(** What a successful [saveWorkout] leaves in the store. *)
Lemma saveWorkout_success uid x1 x2 s db :
  events (saveWorkout (Some uid) x1 x2 s db) = success_events ->
  exists workout rows,
    store (saveWorkout (Some uid) x1 x2 s db)
    = Store.mkDB (Store.workouts db ++ [workout]) (Store.exercises db ++ rows)
    /\ Store.w_user_id workout = uid
    /\ Store.w_name workout = workoutName s
    /\ Store.w_notes workout = Some (workoutNotes s)
    /\ Store.has_workout_id (Store.w_id workout) db = false
    /\ Forall2 (fun ex r =>
                  Store.e_workout_id r = Store.w_id workout
                  /\ Store.e_name r = name ex
                  /\ Store.e_sets r = sets ex
                  /\ Store.e_reps r = reps ex
                  /\ Store.e_weight r = Store.round_hundredths (weight ex))
               (exercises s) rows.
Proof.
  intros Hev.
  destruct (saveWorkout_cases (Some uid) x1 x2 s db)
    as [[_ Hout] | [(_ & _ & Hout) | (_ & _ & _ & Hrest)]];
    try (rewrite Hout in Hev; discriminate Hev).
  destruct Hrest as [(d & Hd & _) | [(d & u0 & w & _ & _ & Hd)
                                    | (u0 & w & db1 & u & Hu & H1 & H2 & _)]];
    try (rewrite Hd in Hev; discriminate Hev).
  injection Hu as <-.
  pose proof H1 as Hfresh. apply request_inv in Hfresh.
  destruct Hfresh as [(e & _ & He & _) | [_ Hfresh]]; [discriminate He|].
  apply insert_workout_fresh in Hfresh.
  apply insert_workout_request_row in H1. destruct H1 as (_ & Hrow & ->).
  apply insert_exercises_request_inv in H2. destruct H2 as (rows & -> & Hrows).
  exists w, rows. cbn [Store.workouts Store.exercises].
  rewrite Hrow in *. cbn [Store.w_user_id Store.w_name Store.w_notes] in *.
  repeat split; auto.
Qed.

(** X16: [saveWorkout] leaves the page for the dashboard only when the
    workout of the form and every exercise of the form are in the store: the
    store is then the one of before with one workout more, of the user, with
    the name and notes of the form, and one exercise more per exercise of the
    form, in the order of the form, each with the id of that workout and the
    name, sets and reps entered and the weight rounded to two decimals.
    Every run shows exactly one toast and never clears the form; and either
    it stops at a validation toast, state and store as before, or it ends
    with [saving] false, whether the requests succeeded, failed or threw. *)
Theorem saveWorkout_navigates_when_stored user x1 x2 s db :
  let out := saveWorkout user x1 x2 s db in
  (In (UI.Navigate UI.Home) (events out) ->
   exists workout rows,
     store out
     = Store.mkDB (Store.workouts db ++ [workout]) (Store.exercises db ++ rows)
     /\ user = Some (Store.w_user_id workout)
     /\ Store.w_name workout = workoutName s
     /\ Store.w_notes workout = Some (workoutNotes s)
     /\ Forall2 (fun ex r =>
                   Store.e_workout_id r = Store.w_id workout
                   /\ Store.e_name r = name ex
                   /\ Store.e_sets r = sets ex
                   /\ Store.e_reps r = reps ex
                   /\ Store.e_weight r = Store.round_hundredths (weight ex))
                (exercises s) rows)
  /\ (exists t, events out = [UI.Toast t] \/ events out = [UI.Toast t; UI.Navigate UI.Home])
  /\ workoutName (state out) = workoutName s
  /\ workoutNotes (state out) = workoutNotes s
  /\ exercises (state out) = exercises s
  /\ ((exists t, out = mkOutcome s [validation_toast t] db)
      \/ saving (state out) = false).
Proof.
  cbv zeta.
  destruct (saveWorkout_cases user x1 x2 s db)
    as [[_ Hout] | [(_ & _ & Hout) | (_ & _ & Hst & Hrest)]].
  - rewrite Hout. cbn [events state store].
    split; [intros [H|[]]; discriminate H|]. split; [eexists; left; reflexivity|].
    repeat split. left. eexists. reflexivity.
  - rewrite Hout. cbn [events state store].
    split; [intros [H|[]]; discriminate H|]. split; [eexists; left; reflexivity|].
    repeat split. left. eexists. reflexivity.
  - rewrite Hst. cbn [setSaving workoutName workoutNotes exercises saving].
    assert (Hstate : forall P Q : Prop, P -> P /\ workoutName s = workoutName s
              /\ workoutNotes s = workoutNotes s /\ exercises s = exercises s
              /\ (Q \/ false = false))
      by (intros P Q HP; repeat split; auto).
    destruct Hrest as [(d & Hev & _) | [(d & uid & w & _ & _ & Hev)
                                      | (uid & w & db1 & u & Hu & _ & _ & Hev)]].
    + rewrite Hev. split; [intros [H|[]]; discriminate H|]. apply Hstate.
      eexists; left; reflexivity.
    + rewrite Hev. split; [intros [H|[]]; discriminate H|]. apply Hstate.
      eexists; left; reflexivity.
    + split; [|rewrite Hev; apply Hstate; eexists; right; reflexivity].
      intros _. subst user.
      destruct (saveWorkout_success uid x1 x2 s db Hev)
        as (workout & rows & Hstore & Hown & Hname & Hnotes & _ & Hrows).
      exists workout, rows. rewrite Hown. repeat split; assumption.
Qed.

Lemma saveWorkout_navigates_when_stored_witness :
  exists workout rows,
    one_workout
    = Store.mkDB (Store.workouts Store.empty ++ [workout])
                 (Store.exercises Store.empty ++ rows)
    /\ Some alice = Some (Store.w_user_id workout)
    /\ Store.w_name workout = workoutName (form [squat 3])
    /\ Store.w_notes workout = Some (workoutNotes (form [squat 3]))
    /\ Forall2 (fun ex r =>
                  Store.e_workout_id r = Store.w_id workout
                  /\ Store.e_name r = name ex
                  /\ Store.e_sets r = sets ex
                  /\ Store.e_reps r = reps ex
                  /\ Store.e_weight r = Store.round_hundredths (weight ex))
               (exercises (form [squat 3])) rows.
Proof.
  apply (proj1 (saveWorkout_navigates_when_stored (Some alice) (reaches 1000 "w")
                  (reaches 2000 "e") (form [squat 3]) Store.empty)).
  vm_compute. right. left. reflexivity.
Defined.

Lemma Forall2_map_eq {A B C} (R : A -> B -> Prop) (f : A -> C) (g : B -> C) l l' :
  Forall2 R l l' -> (forall a b, R a b -> g b = f a) -> map g l' = map f l.
Proof.
  intros H Hfg. induction H as [|a b l l' Hab _ IH]; [reflexivity|].
  cbn [map]. rewrite IH, (Hfg a b Hab). reflexivity.
Qed.

(** X23: what is saved is what the history shows.  After a [saveWorkout]
    that ends with its success toast, on a store whose exercises all
    reference existing workouts, the history page of the same user lists a
    workout with the name and notes of the form, collapsed, and under it,
    when the request for its exercises succeeds, exactly the exercises of
    the form, in the order of the form, with their names, sets and reps. *)
Theorem saved_workout_in_history uid x1 x2 s db lost env' hs :
  referential_integrity db ->
  events (saveWorkout (Some uid) x1 x2 s db) = success_events ->
  Store.auth_uid env' = Some uid ->
  exists w,
    In w (History.workouts
            (fst (History.fetchWorkouts None lost env'
                    (store (saveWorkout (Some uid) x1 x2 s db)) hs)))
    /\ History.name w = workoutName s
    /\ History.notes w = Some (workoutNotes s)
    /\ History.expanded w = Some false
    /\ (lost (History.id w) = false ->
        exists exs,
          History.exercises w = Some exs
          /\ map History.ex_name exs = map name (exercises s)
          /\ map History.sets exs = map sets (exercises s)
          /\ map History.reps exs = map reps (exercises s)).
Proof.
  intros Hint Hev Hauth.
  destruct (saveWorkout_success uid x1 x2 s db Hev)
    as (workout & rows & Hstore & Hu & Hname & Hnotes & Hfresh & Hrows).
  rewrite Hstore. set (db2 := Store.mkDB _ _).
  assert (Hcaller : Store.is_caller env' (Store.w_user_id workout) = true)
    by (rewrite Hu; apply is_caller_of_auth; exact Hauth).
  assert (Hin : In workout (Store.select_workouts env' None db2)).
  { eapply Permutation_in; [symmetry; apply order_by_date_desc_perm|].
    apply filter_In. split; [|exact Hcaller].
    unfold db2. cbn [Store.workouts]. apply in_or_app. right. left. reflexivity. }
  pose proof (history_fetch_result lost env' db2 hs) as (_ & Hall & _).
  cbv zeta in Hall. rewrite Forall_forall in Hall.
  cbn [History.fetchWorkouts fst History.setLoading History.setWorkouts
       History.workouts] in *.
  pose (g := fun r : Store.workout_row =>
               History.mkWorkout (Store.w_id r) (Store.w_name r)
                 (Store.date_to_json (Store.w_date r)) (Store.w_notes r)
                 (Some (if lost (Store.w_id r) then []
                        else map History.exercise_of_row
                                 (Store.select_exercises env' (Store.w_id r) db2)))
                 (Some false)).
  exists (g workout).
  split; [apply (in_map g); exact Hin|]. unfold g.
  cbn [History.name History.notes History.expanded History.id History.exercises].
  split; [exact Hname|]. split; [exact Hnotes|]. split; [reflexivity|].
  intros Hlost. rewrite Hlost. eexists. split; [reflexivity|].
  assert (Hown : Store.owns_workout env' (Store.w_id workout) db2 = true).
  { apply owns_workout_In. exists workout. split; [|auto].
    unfold db2. cbn [Store.workouts]. apply in_or_app. right. left. reflexivity. }
  rewrite (select_exercises_own _ _ _ Hown). unfold db2. cbn [Store.exercises]. rewrite filter_app.
  rewrite (filter_none _ (Store.exercises db)).
  2: { intros e He. apply Bool.not_true_iff_false. intros Heq. apply eqb_eq in Heq.
       unfold referential_integrity in Hint. rewrite Forall_forall in Hint.
       specialize (Hint e He). rewrite Heq, Hfresh in Hint. discriminate Hint. }
  rewrite filter_all.
  2: { intros e He. apply eqb_eq.
       clear -Hrows He. induction Hrows as [|ex r exs rows Hr _ IH]; [destruct He|].
       destruct He as [<-|He]; [apply Hr | apply IH; exact He]. }
  cbn [app]. rewrite !map_map.
  repeat split; apply (Forall2_map_eq _ _ _ _ _ Hrows);
    intros ex r (_ & Hn & Hs & Hr & _); cbn; assumption.
Qed.

Lemma saved_workout_in_history_witness :
  exists w,
    In w (History.workouts
            (fst (History.fetchWorkouts None (fun _ => false) (session 3000 "h")
                    (store (saveWorkout (Some alice) (reaches 1000 "w")
                              (reaches 2000 "e") (form [squat 3]) Store.empty))
                    History.initial)))
    /\ History.name w = workoutName (form [squat 3])
    /\ History.notes w = Some (workoutNotes (form [squat 3]))
    /\ History.expanded w = Some false
    /\ ((fun _ : JS.jsstring => false) (History.id w) = false ->
        exists exs,
          History.exercises w = Some exs
          /\ map History.ex_name exs = map name (exercises (form [squat 3]))
          /\ map History.sets exs = map sets (exercises (form [squat 3]))
          /\ map History.reps exs = map reps (exercises (form [squat 3]))).
Proof.
  apply (saved_workout_in_history alice (reaches 1000 "w") (reaches 2000 "e")
           (form [squat 3]) Store.empty (fun _ => false) (session 3000 "h")
           History.initial).
  - constructor.
  - vm_compute. reflexivity.
  - reflexivity.
Defined.

(** X24: a saved workout counts on the dashboard.  After a [saveWorkout]
    that ends with its success toast, the dashboard of the same user, once
    fetched, shows as [totalWorkouts] one more than the number of workouts
    the user had, as long as that is at most 5, and 5 beyond. *)
Theorem saved_workout_counted uid x1 x2 s db env' now ds :
  events (saveWorkout (Some uid) x1 x2 s db) = success_events ->
  Store.auth_uid env' = Some uid ->
  Dashboard.totalWorkouts
    (Dashboard.stats
       (fst (Dashboard.fetchWorkouts None env' now
               (store (saveWorkout (Some uid) x1 x2 s db)) ds)))
  = Nat.min 5 (S (length (own_workouts env' db))).
Proof.
  intros Hev Hauth.
  destruct (saveWorkout_success uid x1 x2 s db Hev)
    as (workout & rows & Hstore & Hu & _).
  rewrite Hstore.
  destruct (fetchWorkouts_outcome env' now
              (Store.mkDB (Store.workouts db ++ [workout]) (Store.exercises db ++ rows))
              ds) as [(_ & Htotal & Hlen & _) _].
  cbv zeta in Htotal, Hlen. rewrite Htotal, Hlen. f_equal.
  unfold own_workouts. cbn [Store.workouts]. rewrite filter_app, length_app.
  cbn [filter]. rewrite Hu, (is_caller_of_auth env' uid Hauth). cbn [length]. lia.
Qed.

Lemma saved_workout_counted_witness :
  Dashboard.totalWorkouts
    (Dashboard.stats
       (fst (Dashboard.fetchWorkouts None (session 3000 "h") 3000
               (store (saveWorkout (Some alice) (reaches 1000 "w") (reaches 2000 "e")
                         (form [squat 3]) Store.empty))
               Dashboard.initial)))
  = Nat.min 5 (S (length (own_workouts (session 3000 "h") Store.empty))).
Proof.
  apply (saved_workout_counted alice (reaches 1000 "w") (reaches 2000 "e")
           (form [squat 3]) Store.empty (session 3000 "h") 3000 Dashboard.initial).
  - vm_compute. reflexivity.
  - reflexivity.
Defined.

(** X25: a deleted workout leaves the history.  After the caller's
    [DELETE] of workout [i], the history page of the same session, once
    fetched, lists no workout with id [i], and still lists every other
    workout of the caller. *)
Theorem deleted_workout_leaves_history env env' i db lost hs :
  Store.auth_uid env' = Store.auth_uid env ->
  let h := fst (History.fetchWorkouts None lost env'
                  (Store.delete_workout env i db) hs) in
  ~ In i (map History.id (History.workouts h))
  /\ (forall w, In w (own_workouts env db) -> Store.w_id w <> i ->
                In (Store.w_id w) (map History.id (History.workouts h))).
Proof.
  intros Hsession. cbv zeta.
  pose proof (history_fetch_result lost env' (Store.delete_workout env i db) hs)
    as (Hids & _ & _).
  cbv zeta in Hids. rewrite Hids. clear Hids. split.
  - intros Hin. apply in_map_iff in Hin. destruct Hin as (w & Hid & Hw).
    apply select_workouts_In in Hw. destruct Hw as [Hw Hcaller].
    rewrite (is_caller_same_session env env' _ Hsession) in Hcaller.
    cbn [Store.delete_workout Store.workouts] in Hw.
    apply filter_In in Hw. destruct Hw as [_ Hkept].
    unfold Store.deleted in Hkept. rewrite Hcaller, Hid, eqb_refl in Hkept.
    discriminate Hkept.
  - intros w Hw Hid. apply in_map.
    eapply Permutation_in; [symmetry; apply order_by_date_desc_perm|].
    unfold own_workouts in Hw. apply filter_In in Hw. destruct Hw as [Hw Hcaller].
    apply filter_In. split.
    + cbn [Store.delete_workout Store.workouts]. apply filter_In.
      split; [exact Hw|]. unfold Store.deleted.
      apply Bool.negb_true_iff, Bool.andb_false_iff. left.
      apply Bool.not_true_iff_false. rewrite eqb_eq. exact Hid.
    + rewrite (is_caller_same_session env env' _ Hsession). exact Hcaller.
Qed.

Lemma deleted_workout_leaves_history_witness :
  ~ In (JS.lit "w0")
       (map History.id
            (History.workouts
               (fst (History.fetchWorkouts None (fun _ => false) (session 4000 "h")
                       (Store.delete_workout (session 3000 "d") (JS.lit "w0") two_users)
                       History.initial)))).
Proof.
  apply (proj1 (deleted_workout_leaves_history (session 3000 "d") (session 4000 "h")
                  (JS.lit "w0") two_users (fun _ => false) History.initial eq_refl)).
Defined.

(* ================================================================= *)
(** ** The dashboard and the clock *)




(* ================================================================= *)
(** ** Toggling on the history page *)




Example toggleWorkout_expands :
  map History.expanded
      (History.workouts
         (History.toggleWorkout (JS.lit "w0")
            (fst (History.fetchWorkouts None (fun _ => false) (session 0 "s")
                    two_users History.initial))))
  = [Some true].
Proof. vm_compute. reflexivity. Qed.

(* ================================================================= *)
(** ** A batch that the store accepts *)







Example saveWorkout_accepted_rows :
  map (fun r => (Store.e_id r, Store.e_sets r, Store.e_weight r))
      (rows_from (session 2000 "e") 0 (exercisesData legs [squat 3; squat 5]))
  = [(JS.lit "e0", 3, 6250); (JS.lit "e1", 5, 6250)].
Proof. vm_compute. reflexivity. Qed.
